(** * Structured logging set-up of the [app] package

    A shallow embedding of [app/log.py] and [app/settings.py]: the two
    processors the package defines itself, the processor chain that
    [setup_logging] builds, and the effect of [setup_logging] on the state of
    the interpreter (the [logging] registry, the [structlog] configuration
    and [sys.excepthook]).

    The processors and renderers that come from [structlog], and the way a
    renderer turns an event dict into text, are not part of the package: they
    are taken as parameters wherever a statement depends on what they
    compute. *)

Set Warnings "-rewrite-rw".
From Stdlib Require Import ssreflect.
From stdpp Require Import gmap strings list.

Open Scope string_scope.
Open Scope list_scope.

(** ** Results of fallible Python code *)

(** [ValueError fmt arg] is [ValueError(fmt % arg)]: the text keeps the
    format and its argument apart, so that [%r] needs no model of [repr]. *)
Inductive PyErr :=
  | KeyError (key : string)
  | ValueError (fmt : string) (arg : string)
  | TypeError (msg : string)
  | AttributeError (msg : string).

Inductive result (A : Type) :=
  | Ok (a : A)
  | Raise (e : PyErr).
Arguments Ok {A} a.
Arguments Raise {A} e.

Definition is_ok {A} (r : result A) : bool :=
  match r with Ok _ => true | Raise _ => false end.

(** ** Exceptions *)

(** A class with its method resolution order, itself included. *)
Record PyClass := { cls_name : string; cls_mro : list string }.

Definition issubclass (c : PyClass) (base : string) : bool :=
  existsb (String.eqb base) (cls_mro c).

Record ExcInfo := {
  exc_type : PyClass;
  exc_value : string;
  exc_traceback : option (list string)
}.

(** ** Values stored in an event dict *)

Inductive PyValue :=
  | PyNone
  | PyBool (b : bool)
  | PyInt (n : Z)
  | PyStr (s : string)
  | PyObj (id : nat)
  | PyExc (e : ExcInfo).     (* an [exc_info] triple *)

(** ** Python dictionaries

    A [dict] keeps its keys in insertion order and a renderer prints the
    fields in that order, so an event dict is a list of bindings.  A
    well-formed dict binds every key at most once. *)

Module PyDict.

Definition t := list (string * PyValue).

Definition wf (d : t) : Prop := NoDup (map fst d).

(** [d.get(k)] *)
Fixpoint get (k : string) (d : t) : option PyValue :=
  match d with
  | [] => None
  | (k', v) :: d' => if String.eqb k k' then Some v else get k d'
  end.

(** [k in d] *)
Definition mem (k : string) (d : t) : bool :=
  match get k d with Some _ => true | None => false end.

(** [d[k] = v]: an existing key keeps its position, a new key goes last. *)
Fixpoint set (k : string) (v : PyValue) (d : t) : t :=
  match d with
  | [] => [(k, v)]
  | (k', v') :: d' =>
      if String.eqb k k' then (k, v) :: d' else (k', v') :: set k v d'
  end.

(** [del d[k]] on a dict that has the key; the other bindings keep their
    order. *)
Fixpoint remove (k : string) (d : t) : t :=
  match d with
  | [] => []
  | (k', v') :: d' =>
      if String.eqb k k' then remove k d' else (k', v') :: remove k d'
  end.

(** [d.pop(k)] and [d.pop(k, default)]: without a default a missing key
    raises [KeyError]; with one, the default is returned and the dict is
    left as it is. *)
Definition pop (k : string) (default : option PyValue) (d : t)
  : result (PyValue * t) :=
  match get k d, default with
  | Some v, _ => Ok (v, remove k d)
  | None, Some dflt => Ok (dflt, d)
  | None, None => Raise (KeyError k)
  end.

(** [del d[k]] *)
Definition del (k : string) (d : t) : result t :=
  match get k d with
  | Some _ => Ok (remove k d)
  | None => Raise (KeyError k)
  end.

End PyDict.

Abbreviation EventDict := PyDict.t.

(** ** The process the interpreter runs in *)

Record Process := { pid : Z }.

(** [os.getpid()] *)
Definition os_getpid (os : Process) : Z := pid os.

(** ** The processors defined in [app/log.py] *)

(** [_set_process_id(_, __, event_dict)] *)
Definition _set_process_id (os : Process) (_ : PyValue) (__ : string)
    (event_dict : EventDict) : result EventDict :=
  let event_dict := PyDict.set "process_id" (PyInt (os_getpid os)) event_dict in
  Ok event_dict.

(** [_drop_color_message_key(_, __, event_dict)] *)
Definition _drop_color_message_key (_ : PyValue) (__ : string)
    (event_dict : EventDict) : result EventDict :=
  match PyDict.pop "color_message" (Some PyNone) event_dict with
  | Ok (_, event_dict) => Ok event_dict
  | Raise e => Raise e
  end.

(** ** Processors and renderers, as [setup_logging] names them *)

Inductive CallsiteParameter := FILENAME | FUNC_NAME | LINENO.

(** The enrichment stages taken from [structlog]. *)
Inductive LibProcessor :=
  | merge_contextvars
  | add_logger_name
  | add_log_level
  | PositionalArgumentsFormatter
  | ExtraAdder
  | TimeStamper (fmt : string)
  | StackInfoRenderer
  | UnicodeDecoder
  | CallsiteParameterAdder (parameters : list CallsiteParameter)
  | format_exc_info.

(** [colorama] escape codes; a style is the concatenation of its codes. *)
Inductive Colorama := Fore_CYAN | Fore_GREEN | Fore_YELLOW | Fore_RED | Style_BRIGHT.

Inductive LogRenderer :=
  | JSONRenderer
  | ConsoleRenderer (colors : bool) (level_styles : list (string * list Colorama)).

Inductive Processor :=
  | Lib (p : LibProcessor)
  | SetProcessId            (* [_set_process_id] *)
  | DropColorMessageKey     (* [_drop_color_message_key] *)
  | WrapForFormatter        (* [ProcessorFormatter.wrap_for_formatter] *)
  | RemoveProcessorsMeta    (* [ProcessorFormatter.remove_processors_meta] *)
  | Render (r : LogRenderer).

(** ** Module globals of [app/log.py] *)

Definition LOG_LEVEL : string := "INFO".
Definition LOG_JSON_FORMAT : bool := false.

(** [__name__] inside [app/log.py] *)
Definition __name__ : string := "app.log".

(** The list [shared_processors] as it stands when [structlog.configure] and
    [ProcessorFormatter] receive it: the literal, then the conditional
    [append]. *)
Definition shared_processors (log_json_format : bool) : list Processor :=
  let shared := [
    Lib merge_contextvars;
    Lib add_logger_name;
    SetProcessId;
    Lib add_log_level;
    Lib PositionalArgumentsFormatter;
    Lib ExtraAdder;
    DropColorMessageKey;
    Lib (TimeStamper "iso");
    Lib StackInfoRenderer;
    Lib UnicodeDecoder;
    Lib (CallsiteParameterAdder [FILENAME; FUNC_NAME; LINENO])
  ] in
  if log_json_format then shared ++ [Lib format_exc_info] else shared.

Definition log_renderer (log_json_format : bool) : LogRenderer :=
  if log_json_format then JSONRenderer
  else ConsoleRenderer true [
    ("debug", [Fore_CYAN]);
    ("info", [Fore_GREEN]);
    ("warning", [Fore_YELLOW]);
    ("error", [Fore_RED]);
    ("critical", [Fore_RED; Style_BRIGHT])
  ].

(** ** [app/settings.py] *)

Inductive LogLevel := NOTSET | DEBUG | INFO | WARNING | ERROR | FATAL.

(** The members in the order the class body declares them. *)
Definition LogLevel_members : list LogLevel :=
  [NOTSET; DEBUG; INFO; WARNING; ERROR; FATAL].

(** [member.value] *)
Definition LogLevel_value (l : LogLevel) : string :=
  match l with
  | NOTSET => "NOTSET"
  | DEBUG => "DEBUG"
  | INFO => "INFO"
  | WARNING => "WARNING"
  | ERROR => "ERROR"
  | FATAL => "FATAL"
  end.

(** [a < b]: [LogLevel] is declared as [class LogLevel(str, enum.Enum)] and
    defines no comparison, so [<] is the one of [str], on the values. *)
Definition LogLevel_lt (a b : LogLevel) : bool :=
  String.ltb (LogLevel_value a) (LogLevel_value b).

(** Position of a member in the class body. *)
Definition LogLevel_index (l : LogLevel) : nat :=
  match l with
  | NOTSET => 0 | DEBUG => 1 | INFO => 2 | WARNING => 3 | ERROR => 4 | FATAL => 5
  end.

Record Settings := {
  ENVIRONMENT : string;
  RELOAD : bool;
  WORKERS : Z;
  S_LOG_LEVEL : LogLevel;
  S_LOG_JSON_FORMAT : bool;
  REDIS_HOST : string;
  REDIS_PORT : Z
}.

(** The field defaults of [class Settings]. *)
Definition Settings_defaults : Settings := {|
  ENVIRONMENT := "pytest";
  RELOAD := false;
  WORKERS := 1;
  S_LOG_LEVEL := INFO;
  S_LOG_JSON_FORMAT := false;
  REDIS_HOST := "localhost";
  REDIS_PORT := 6378
|}.

(** ** The part of [logging] that [setup_logging] drives *)

(** [logging._nameToLevel] *)
Definition _nameToLevel (name : string) : option nat :=
  if String.eqb name "CRITICAL" then Some 50
  else if String.eqb name "FATAL" then Some 50
  else if String.eqb name "ERROR" then Some 40
  else if String.eqb name "WARN" then Some 30
  else if String.eqb name "WARNING" then Some 30
  else if String.eqb name "INFO" then Some 20
  else if String.eqb name "DEBUG" then Some 10
  else if String.eqb name "NOTSET" then Some 0
  else None.

Definition CRITICAL : nat := 50.

(** [str.upper] on ASCII text, where it changes the letters [a] to [z] and
    nothing else.  [LOG_LEVEL] is such a text; [str.upper] also maps letters
    outside ASCII, which is not modelled, so a statement about another level
    name asks for [is_ascii]. *)
Definition ascii_upper (c : Ascii.ascii) : Ascii.ascii :=
  let n := Ascii.nat_of_ascii c in
  if (97 <=? n)%nat && (n <=? 122)%nat then Ascii.ascii_of_nat (n - 32) else c.

Fixpoint upper (s : string) : string :=
  match s with
  | EmptyString => EmptyString
  | String c s' => String (ascii_upper c) (upper s')
  end.

Fixpoint is_ascii (s : string) : bool :=
  match s with
  | EmptyString => true
  | String c s' => (Ascii.nat_of_ascii c <? 128)%nat && is_ascii s'
  end.

(** [structlog.stdlib.ProcessorFormatter(foreign_pre_chain=..., processors=...)] *)
Record Formatter := {
  foreign_pre_chain : list Processor;
  processors : list Processor
}.

(** A handler is an object: two [StreamHandler()] calls give two handlers,
    told apart by [handler_id]. *)
Record Handler := {
  handler_id : nat;
  handler_level : nat;
  handler_formatter : option Formatter
}.

Record Logger := {
  level : nat;
  handlers : list Handler;
  propagate : bool
}.

(** What [logging.getLogger(name)] creates for a name it has not seen. *)
Definition new_logger : Logger :=
  {| level := 0; handlers := []; propagate := true |}.

(** [structlog.configure(...)] *)
Record StructlogConfig := {
  sl_processors : list Processor;
  sl_logger_factory : string;
  sl_wrapper_class : string;
  sl_cache_logger_on_first_use : bool
}.

(** ** The exception hook *)

(** The values [sys.excepthook] can hold: the interpreter's own hook
    [sys.__excepthook__], a hook some other code installed, or the closure
    [_handle_exception] of [setup_logging]. *)
Inductive Hook :=
  | sys___excepthook__
  | ForeignHook (id : nat)
  | HandleException.

Record LogRecord := {
  rec_name : string;
  rec_levelno : nat;
  rec_msg : string;
  rec_exc_info : option ExcInfo
}.

(** What the outside sees of a run. *)
Inductive Effect :=
  | Logged (r : LogRecord)                   (* a record was made and handled *)
  | Emitted (h : Handler) (r : LogRecord)    (* a handler formatted and wrote it *)
  | EmittedLastResort (r : LogRecord)        (* [logging.lastResort] wrote it *)
  | HookCalled (h : Hook) (e : ExcInfo).     (* a hook outside the package ran *)

(** ** Interpreter state *)

Record Interp := {
  root : Logger;                         (* [logging.root] *)
  loggerDict : gmap string Logger;       (* [Logger.manager.loggerDict] *)
  structlog_config : option StructlogConfig;
  excepthook : Hook;                     (* [sys.excepthook] *)
  next_object : nat;                     (* identity of the next new object *)
  settings : Settings;                   (* [app.settings.settings] *)
  os : Process;
  trace : list Effect
}.

Definition set_root (l : Logger) (st : Interp) : Interp :=
  {| root := l; loggerDict := loggerDict st;
     structlog_config := structlog_config st; excepthook := excepthook st;
     next_object := next_object st; settings := settings st; os := os st;
     trace := trace st |}.

Definition set_loggerDict (d : gmap string Logger) (st : Interp) : Interp :=
  {| root := root st; loggerDict := d;
     structlog_config := structlog_config st; excepthook := excepthook st;
     next_object := next_object st; settings := settings st; os := os st;
     trace := trace st |}.

Definition set_structlog_config (c : option StructlogConfig) (st : Interp) : Interp :=
  {| root := root st; loggerDict := loggerDict st;
     structlog_config := c; excepthook := excepthook st;
     next_object := next_object st; settings := settings st; os := os st;
     trace := trace st |}.

Definition set_excepthook (h : Hook) (st : Interp) : Interp :=
  {| root := root st; loggerDict := loggerDict st;
     structlog_config := structlog_config st; excepthook := h;
     next_object := next_object st; settings := settings st; os := os st;
     trace := trace st |}.

Definition set_next_object (n : nat) (st : Interp) : Interp :=
  {| root := root st; loggerDict := loggerDict st;
     structlog_config := structlog_config st; excepthook := excepthook st;
     next_object := n; settings := settings st; os := os st;
     trace := trace st |}.

Definition set_trace (t : list Effect) (st : Interp) : Interp :=
  {| root := root st; loggerDict := loggerDict st;
     structlog_config := structlog_config st; excepthook := excepthook st;
     next_object := next_object st; settings := settings st; os := os st;
     trace := t |}.

(** ** Statements: a state monad in which an exception keeps the mutations
    made before it was raised *)

Definition M (A : Type) : Type := Interp -> result A * Interp.

#[global] Instance M_ret : MRet M := fun A a st => (Ok a, st).

#[global] Instance M_bind : MBind M := fun A B f m st =>
  match m st with
  | (Ok a, st') => f a st'
  | (Raise e, st') => (Raise e, st')
  end.

Definition raise {A} (e : PyErr) : M A := fun st => (Raise e, st).
Definition get_state : M Interp := fun st => (Ok st, st).
Definition modify (f : Interp -> Interp) : M unit := fun st => (Ok tt, f st).
Definition emit (e : Effect) : M unit :=
  modify (fun st => set_trace (trace st ++ [e]) st).

(** [for x in xs: body] *)
Fixpoint for_each {A} (xs : list A) (body : A -> M unit) : M unit :=
  match xs with
  | [] => mret tt
  | x :: xs' => body x ;; for_each xs' body
  end.

(** State a run ends in, and whether it ended normally. *)
Definition exec {A} (m : M A) (st : Interp) : Interp := snd (m st).
Definition returns {A} (m : M A) (st : Interp) : bool := is_ok (fst (m st)).

(** ** [logging] operations *)

Inductive LoggerRef := RootLogger | NamedLogger (name : string).

(** [logging.getLogger(name)]: the root for no name or the root's name,
    else the registered logger of that name, created on first use.  A
    [Logger] here holds the level, the handlers and the propagation flag.
    Its [parent] is not stored: [logging] keeps it equal to the nearest
    registered ancestor by dotted name, re-parenting existing descendants
    when a logger is created ([_fixupParents], [_fixupChildren]), and keeps
    placeholders for missing ancestors; neither is modelled, and no
    statement below is about a logger's parent. *)
Definition getLogger (name : string) : M LoggerRef :=
  if String.eqb name "" || String.eqb name "root" then mret RootLogger
  else
    st ← get_state;
    match loggerDict st !! name with
    | Some _ => mret (NamedLogger name)
    | None =>
        modify (set_loggerDict (<[name := new_logger]> (loggerDict st))) ;;
        mret (NamedLogger name)
    end.

Definition deref (r : LoggerRef) (st : Interp) : Logger :=
  match r with
  | RootLogger => root st
  | NamedLogger name => default new_logger (loggerDict st !! name)
  end.

Definition update (r : LoggerRef) (f : Logger -> Logger) : M unit :=
  modify (fun st =>
    match r with
    | RootLogger => set_root (f (root st)) st
    | NamedLogger name =>
        set_loggerDict (<[name := f (deref r st)]> (loggerDict st)) st
    end).

(** [logger.handlers.clear()] *)
Definition handlers_clear (r : LoggerRef) : M unit :=
  update r (fun l => {| level := level l; handlers := []; propagate := propagate l |}).

(** [logger.propagate = b] *)
Definition set_propagate (r : LoggerRef) (b : bool) : M unit :=
  update r (fun l => {| level := level l; handlers := handlers l; propagate := b |}).

(** [logging.StreamHandler()] *)
Definition StreamHandler : M Handler :=
  st ← get_state;
  modify (set_next_object (S (next_object st))) ;;
  mret {| handler_id := next_object st; handler_level := 0;
          handler_formatter := None |}.

(** [handler.setFormatter(fmt)], before the handler is attached anywhere. *)
Definition setFormatter (h : Handler) (fmt : Formatter) : Handler :=
  {| handler_id := handler_id h; handler_level := handler_level h;
     handler_formatter := Some fmt |}.

Definition same_object (h h' : Handler) : bool :=
  Nat.eqb (handler_id h) (handler_id h').

(** [logger.addHandler(hdlr)]: appended unless that object is attached. *)
Definition addHandler (r : LoggerRef) (hdlr : Handler) : M unit :=
  update r (fun l =>
    if existsb (same_object hdlr) (handlers l) then l
    else {| level := level l; handlers := handlers l ++ [hdlr];
            propagate := propagate l |}).

(** [logger.setLevel(name)] with a level name; [logging._checkLevel] raises
    [ValueError("Unknown level: %r" % name)] for a name it does not know. *)
Definition setLevel (r : LoggerRef) (name : string) : M unit :=
  match _nameToLevel name with
  | Some n =>
      update r (fun l => {| level := n; handlers := handlers l; propagate := propagate l |})
  | None => raise (ValueError "Unknown level: %r" name)
  end.

(** [logging.lastResort.level] *)
Definition lastResort_level : nat := 30.

(** [root.callHandlers(record)]: the root has no parent. *)
Definition callHandlers_root (record : LogRecord) : M unit :=
  st ← get_state;
  match handlers (root st) with
  | [] =>
      if (lastResort_level <=? rec_levelno record)%nat
      then emit (EmittedLastResort record) else mret tt
  | hs =>
      for_each hs (fun hdlr =>
        if (handler_level hdlr <=? rec_levelno record)%nat
        then emit (Emitted hdlr record) else mret tt)
  end.

(** [root.isEnabledFor(levelno)]: the root's own level is its effective
    level. *)
Definition isEnabledFor_root (levelno : nat) (st : Interp) : bool :=
  (level (root st) <=? levelno)%nat.

(** [root.critical(msg, exc_info=exc_info)] *)
Definition root_critical (msg : string) (exc_info : option ExcInfo) : M unit :=
  st ← get_state;
  if isEnabledFor_root CRITICAL st then
    let record := {| rec_name := "root"; rec_levelno := CRITICAL;
                     rec_msg := msg; rec_exc_info := exc_info |} in
    emit (Logged record) ;;
    callHandlers_root record
  else mret tt.

(** ** [setup_logging] *)

(** The closure [_handle_exception]; its [root_logger] is the root logger
    object, whose state is read when the hook runs. *)
Definition _handle_exception (e : ExcInfo) : M unit :=
  if issubclass (exc_type e) "KeyboardInterrupt" then
    emit (HookCalled sys___excepthook__ e)
  else
    root_critical "Uncaught exception" (Some e).

(** Calling the value of [sys.excepthook]. *)
Definition call_hook (h : Hook) (e : ExcInfo) : M unit :=
  match h with
  | HandleException => _handle_exception e
  | _ => emit (HookCalled h e)
  end.

(** [sys.excepthook(type, value, traceback)] on the hook installed at the
    time, which is how the interpreter reports an exception nobody caught,
    provided the exception is not a [SystemExit]. *)
Definition uncaught (e : ExcInfo) : M unit :=
  st ← get_state;
  call_hook (excepthook st) e.

(** An exception nobody caught arrives at the top of the interpreter: a
    [SystemExit] ends the process without any hook being called, every other
    exception goes to [sys.excepthook]. *)
Definition at_top_level (e : ExcInfo) : M unit :=
  if issubclass (exc_type e) "SystemExit" then mret tt else uncaught e.

(** The body of [setup_logging], with the two module globals it reads as
    arguments. *)
Definition setup_logging_with (log_level : string) (log_json_format : bool)
    : M unit :=
  let shared := shared_processors log_json_format in
  (* == StructLog Config == *)
  modify (set_structlog_config (Some {|
    sl_processors := shared ++ [WrapForFormatter];
    sl_logger_factory := "structlog.stdlib.LoggerFactory";
    sl_wrapper_class := "structlog.stdlib.BoundLogger";
    sl_cache_logger_on_first_use := true |})) ;;
  let renderer := log_renderer log_json_format in
  let formatter := {|
    foreign_pre_chain := shared;
    processors := [RemoveProcessorsMeta; Render renderer] |} in
  (* == Configure the root logger handler == *)
  handler ← StreamHandler;
  let handler := setFormatter handler formatter in
  root_logger ← getLogger "";
  addHandler root_logger handler ;;
  setLevel root_logger (upper log_level) ;;
  (* == Adjust loggers for uvicorn, pymongo, taskiq, etc. == *)
  for_each ["uvicorn"; "uvicorn.error"] (fun _log =>
    l ← getLogger _log; handlers_clear l ;;
    l ← getLogger _log; set_propagate l true) ;;
  l ← getLogger "uvicorn.access"; handlers_clear l ;;
  l ← getLogger "uvicorn.access"; set_propagate l false ;;
  l ← getLogger "pymongo.topology"; handlers_clear l ;;
  l ← getLogger "pymongo.topology"; set_propagate l false ;;
  (* == Configure taskiq loggers to use structured logging == *)
  for_each ["taskiq"; "taskiq.worker"; "taskiq.broker"; "taskiq.scheduler"]
    (fun _log =>
      _logger ← getLogger __name__;
      set_propagate _logger false) ;;
  (* Redirect all uncaught exceptions to the logger *)
  modify (set_excepthook HandleException).

Definition setup_logging : M unit :=
  setup_logging_with LOG_LEVEL LOG_JSON_FORMAT.

(** A freshly started interpreter: the root logger at WARNING without
    handlers, no other logger, the built-in exception hook. *)
Definition fresh (s : Settings) (p : Process) : Interp := {|
  root := {| level := 30; handlers := []; propagate := true |};
  loggerDict := ∅;
  structlog_config := None;
  excepthook := sys___excepthook__;
  next_object := 0;
  settings := s;
  os := p;
  trace := []
|}.

(** ** The two ways a log call reaches the renderer

    What a [structlog] stage or renderer computes is a parameter; the stages
    of [app/log.py] are the definitions above. *)

Inductive Flow := Dict (d : EventDict) | Text (s : string).

Definition FlowOf {A} (wrap : A -> Flow) (r : result A) : result Flow :=
  match r with Ok a => Ok (wrap a) | Raise e => Raise e end.

(** [ProcessorFormatter.remove_processors_meta]: remove [_record] and
    [_from_structlog]. *)
Definition remove_processors_meta (event_dict : EventDict) : result EventDict :=
  match PyDict.del "_record" event_dict with
  | Ok event_dict => PyDict.del "_from_structlog" event_dict
  | Raise e => Raise e
  end.

(** The event dict [ProcessorFormatter.format] starts from for a record made
    by [logging]: the message, the two bookkeeping keys, and the record's
    [exc_info] and [stack_info] when it has them. *)
Definition foreign_event (record : nat) (message : string)
    (exc_info : option ExcInfo) (stack_info : option string) : EventDict :=
  [("event", PyStr message); ("_record", PyObj record);
   ("_from_structlog", PyBool false)]
  ++ match exc_info with
     | Some e => [("exc_info", PyExc e)]
     | None => []
     end
  ++ match stack_info with
     | Some s => if String.eqb s "" then [] else [("stack_info", PyStr s)]
     | None => []
     end.

(** [record.levelname.lower()] for the levels [logging] has a name for. *)
Definition levelname_lower (levelno : nat) : option string :=
  match levelno with
  | 50 => Some "critical"
  | 40 => Some "error"
  | 30 => Some "warning"
  | 20 => Some "info"
  | 10 => Some "debug"
  | 0 => Some "notset"
  | _ => None
  end.

Section Pipeline.

Variable lib : LibProcessor -> PyValue -> string -> EventDict -> result EventDict.
Variable render : LogRenderer -> PyValue -> string -> EventDict -> result string.
Variable proc : Process.

Definition run_processor (p : Processor) (logger : PyValue) (name : string)
    (event_dict : EventDict) : result Flow :=
  match p with
  | Lib q => FlowOf Dict (lib q logger name event_dict)
  | SetProcessId => FlowOf Dict (_set_process_id proc logger name event_dict)
  | DropColorMessageKey => FlowOf Dict (_drop_color_message_key logger name event_dict)
  | WrapForFormatter => Ok (Dict event_dict)
  | RemoveProcessorsMeta => FlowOf Dict (remove_processors_meta event_dict)
  | Render r => FlowOf Text (render r logger name event_dict)
  end.

(** [for proc in chain: ev = proc(logger, name, ev)] *)
Fixpoint run_chain (chain : list Processor) (logger : PyValue) (name : string)
    (ev : Flow) : result Flow :=
  match chain with
  | [] => Ok ev
  | p :: chain' =>
      match ev with
      | Dict d =>
          match run_processor p logger name d with
          | Ok ev' => run_chain chain' logger name ev'
          | Raise e => Raise e
          end
      | Text _ => Raise (TypeError "processor applied to rendered text")
      end
  end.

(** [ProcessorFormatter.format] on a record whose message is the event dict
    that [wrap_for_formatter] handed over. *)
Definition format_native (f : Formatter) (logger : PyValue) (name : string)
    (record : nat) (msg : EventDict) : result Flow :=
  let ev := PyDict.set "_record" (PyObj record) msg in
  let ev := PyDict.set "_from_structlog" (PyBool true) ev in
  run_chain (processors f) logger name (Dict ev).

(** [ProcessorFormatter.format] on a record made by [logging] itself.  The
    processors get the formatter's own [logger], which [setup_logging] leaves
    unset ([None]), and [record.levelname.lower()] as [name]; the pre-chain
    runs first. *)
Definition format_foreign (f : Formatter) (name : string) (record : nat)
    (message : string) (exc_info : option ExcInfo) (stack_info : option string)
    : result Flow :=
  let ev := foreign_event record message exc_info stack_info in
  match run_chain (foreign_pre_chain f) PyNone name (Dict ev) with
  | Ok (Dict ev) => run_chain (processors f) PyNone name (Dict ev)
  | Ok (Text _) => Raise (TypeError "processor applied to rendered text")
  | Raise e => Raise e
  end.

(** A call on a [structlog] logger: the configured processors, then the
    formatter of the handler that receives the record. *)
Definition native_path (c : StructlogConfig) (f : Formatter) (logger : PyValue)
    (name : string) (record : nat) (event_dict : EventDict) : result Flow :=
  match run_chain (sl_processors c) logger name (Dict event_dict) with
  | Ok (Dict msg) => format_native f logger name record msg
  | Ok (Text _) => Raise (TypeError "processor applied to rendered text")
  | Raise e => Raise e
  end.

(** A call on a [logging] logger. *)
Definition foreign_path (f : Formatter) (name : string) (record : nat)
    (message : string) (exc_info : option ExcInfo) (stack_info : option string)
    : result Flow :=
  format_foreign f name record message exc_info stack_info.

(** [handler.format(record)] for a handler whose formatter is a
    [ProcessorFormatter] and a record made by [logging] without [extra] and
    without stack info, as [root.critical(msg, exc_info=...)] makes it. *)
Definition handler_format (h : Handler) (record : nat) (r : LogRecord)
    : option (result Flow) :=
  f ← handler_formatter h;
  name ← levelname_lower (rec_levelno r);
  Some (format_foreign f name record (rec_msg r) (rec_exc_info r) None).

End Pipeline.

(** The formatter and the [structlog] configuration [setup_logging] builds. *)
Definition the_formatter (log_json_format : bool) : Formatter := {|
  foreign_pre_chain := shared_processors log_json_format;
  processors := [RemoveProcessorsMeta; Render (log_renderer log_json_format)]
|}.

Definition the_config (log_json_format : bool) : StructlogConfig := {|
  sl_processors := shared_processors log_json_format ++ [WrapForFormatter];
  sl_logger_factory := "structlog.stdlib.LoggerFactory";
  sl_wrapper_class := "structlog.stdlib.BoundLogger";
  sl_cache_logger_on_first_use := true
|}.



(** Stand-ins for the [structlog] stages and renderers, to run the definitions
    on examples. *)
Definition demo_lib (p : LibProcessor) (lg : PyValue) (m : string)
    (d : EventDict) : result EventDict :=
  match p with
  | add_logger_name => Ok (PyDict.set "logger" lg d)
  | add_log_level => Ok (PyDict.set "level" (PyStr m) d)
  | TimeStamper _ => Ok (PyDict.set "timestamp" (PyStr "2024-01-01T00:00:00Z") d)
  | format_exc_info => Ok (PyDict.remove "exc_info" d)
  | _ => Ok d
  end.

Fixpoint demo_keys (d : EventDict) : string :=
  match d with
  | [] => ""
  | (k, _) :: d' => k +:+ " " +:+ demo_keys d'
  end.

Definition demo_render (r : LogRenderer) (lg : PyValue) (m : string)
    (d : EventDict) : result string :=
  match r with
  | JSONRenderer => Ok ("{" +:+ demo_keys d +:+ "}")
  | ConsoleRenderer _ _ => Ok (demo_keys d)
  end.

(** ** Reading a state and a trace *)

Definition set_settings (s : Settings) (st : Interp) : Interp :=
  {| root := root st; loggerDict := loggerDict st;
     structlog_config := structlog_config st; excepthook := excepthook st;
     next_object := next_object st; settings := s; os := os st;
     trace := trace st |}.

(** Every handler on the root was made before the next object will be. *)
Definition wf_interp (st : Interp) : Prop :=
  Forall (λ h, handler_id h < next_object st) (handlers (root st)).

(** The numeric level [logging] gives to the name of a member. *)
Definition LogLevel_levelno (l : LogLevel) : nat :=
  default 0 (_nameToLevel (LogLevel_value l)).

Definition logged (t : list Effect) : list LogRecord :=
  omap (λ e, match e with Logged r => Some r | _ => None end) t.

Definition emitted (t : list Effect) : list (Handler * LogRecord) :=
  omap (λ e, match e with Emitted h r => Some (h, r) | _ => None end) t.

Definition hook_calls (t : list Effect) : list (Hook * ExcInfo) :=
  omap (λ e, match e with HookCalled h x => Some (h, x) | _ => None end) t.

(** The renderer at the end of a formatter. *)
Definition renderer_of (f : Formatter) : option LogRenderer :=
  match last (processors f) with
  | Some (Render r) => Some r
  | _ => None
  end.

(** The handler [setup_logging] makes in a state. *)
Definition the_handler (log_json_format : bool) (st : Interp) : Handler := {|
  handler_id := next_object st;
  handler_level := 0;
  handler_formatter := Some (the_formatter log_json_format)
|}.

(** The record [_handle_exception] logs. *)
Definition uncaught_record (e : ExcInfo) : LogRecord := {|
  rec_name := "root";
  rec_levelno := CRITICAL;
  rec_msg := "Uncaught exception";
  rec_exc_info := Some e
|}.

(** [getLogger(name)] followed by an update of the logger, as one state
    change. *)
Definition named_update (name : string) (f : Logger → Logger) (st : Interp)
    : Interp :=
  set_loggerDict
    (<[name := f (default new_logger (loggerDict st !! name))]> (loggerDict st)) st.

Definition clear_handlers (l : Logger) : Logger :=
  {| level := level l; handlers := []; propagate := propagate l |}.

Definition with_propagate (b : bool) (l : Logger) : Logger :=
  {| level := level l; handlers := handlers l; propagate := b |}.

(** Exceptions used in examples. *)
Definition KeyboardInterrupt_class : PyClass :=
  {| cls_name := "KeyboardInterrupt";
     cls_mro := ["KeyboardInterrupt"; "BaseException"; "object"] |}.

Definition ValueError_class : PyClass :=
  {| cls_name := "ValueError";
     cls_mro := ["ValueError"; "Exception"; "BaseException"; "object"] |}.

Definition a_keyboard_interrupt : ExcInfo :=
  {| exc_type := KeyboardInterrupt_class; exc_value := "";
     exc_traceback := Some ["main.py:25"] |}.

Definition a_value_error : ExcInfo :=
  {| exc_type := ValueError_class; exc_value := "boom";
     exc_traceback := Some ["main.py:14"; "task_test.py:11"] |}.

(** ** States used in examples *)

Definition a_process : Process := {| pid := 4242 |}.

(** A handler some code attached with [addHandler(StreamHandler())]. *)
Definition an_old_handler : Handler :=
  {| handler_id := 0; handler_level := 0; handler_formatter := None |}.

(** An interpreter in which the loggers ["taskiq"] and ["uvicorn"] each got a
    handler of their own and were cut off from the root before
    [setup_logging] runs. *)
Definition taskiq_state : Interp := {|
  root := {| level := 30; handlers := []; propagate := true |};
  loggerDict :=
    <["taskiq" := {| level := 0; handlers := [an_old_handler]; propagate := false |}]>
    (<["uvicorn" := {| level := 0; handlers := [an_old_handler]; propagate := false |}]> ∅);
  structlog_config := None;
  excepthook := sys___excepthook__;
  next_object := 1;
  settings := Settings_defaults;
  os := a_process;
  trace := []
|}.

(** Settings loaded from an environment that sets [LOG_LEVEL=DEBUG] and
    [LOG_JSON_FORMAT=true]. *)
Definition debug_json_settings : Settings := {|
  ENVIRONMENT := "pytest";
  RELOAD := false;
  WORKERS := 1;
  S_LOG_LEVEL := DEBUG;
  S_LOG_JSON_FORMAT := true;
  REDIS_HOST := "localhost";
  REDIS_PORT := 6378
|}.

(** An interpreter in which other code installed its own exception hook
    before [setup_logging] runs. *)
Definition hooked_state : Interp :=
  set_excepthook (ForeignHook 7) (fresh Settings_defaults a_process).

(** The renderer of the handler that was attached to the root last. *)
Definition installed_renderer (st : Interp) : option LogRenderer :=
  h ← last (handlers (root st));
  f ← handler_formatter h;
  renderer_of f.

(** Position of a member when the members are sorted by name:
    DEBUG, ERROR, FATAL, INFO, NOTSET, WARNING. *)
Definition index_of_name (l : LogLevel) : nat :=
  match l with
  | DEBUG => 0 | ERROR => 1 | FATAL => 2 | INFO => 3 | NOTSET => 4 | WARNING => 5
  end.

(** What [setup_logging] does to the logger of a name: the handlers are
    detached or kept, and the propagation flag is set. *)
Definition applied_policy (name : string) : option (bool * bool) :=
  if String.eqb name "uvicorn" then Some (true, true)
  else if String.eqb name "uvicorn.error" then Some (true, true)
  else if String.eqb name "uvicorn.access" then Some (true, false)
  else if String.eqb name "pymongo.topology" then Some (true, false)
  else if String.eqb name __name__ then Some (false, false)
  else None.

Definition apply_rule (rule : option (bool * bool)) (o : option Logger)
    : option Logger :=
  match rule with
  | Some (detach, prop) =>
      let l := default new_logger o in
      Some {| level := level l;
              handlers := if detach then [] else handlers l;
              propagate := prop |}
  | None => o
  end.

Definition root_after (n : nat) (json : bool) (st : Interp) : Logger := {|
  level := n;
  handlers :=
    if existsb (same_object (the_handler json st)) (handlers (root st))
    then handlers (root st)
    else handlers (root st) ++ [the_handler json st];
  propagate := propagate (root st)
|}.

Definition named_after (st : Interp) : Interp :=
  let quiet b := with_propagate b ∘ clear_handlers in
  named_update __name__ (with_propagate false)
    (named_update "pymongo.topology" (quiet false)
      (named_update "uvicorn.access" (quiet false)
        (named_update "uvicorn.error" (quiet true)
          (named_update "uvicorn" (quiet true) st)))).

Definition state_after (n : nat) (json : bool) (st : Interp) : Interp :=
  set_excepthook HandleException
    (named_after
      (set_root (root_after n json st)
        (set_next_object (S (next_object st))
          (set_structlog_config (Some (the_config json)) st)))).

(** The stages of the shared chain that come after
    [_drop_color_message_key]. *)
Definition stages_after_drop (log_json_format : bool) : list Processor :=
  drop 7 (shared_processors log_json_format).

(** What is asked of the [structlog] stages that run after
    [_drop_color_message_key]: they do not bring a [color_message] field
    back. *)
Definition later_stages_add_no_color_message
    (lib : LibProcessor → PyValue → string → EventDict → result EventDict)
    (log_json_format : bool) : Prop :=
  ∀ p lg m d d',
    Lib p ∈ stages_after_drop log_json_format →
    lib p lg m d = Ok d' →
    PyDict.mem "color_message" d = false →
    PyDict.mem "color_message" d' = false.

(** A stand-in for [ExtraAdder] that copies a [color_message] attribute of
    the record into the event dict, as a record made by uvicorn carries one. *)
Definition uvicorn_lib (p : LibProcessor) (lg : PyValue) (m : string)
    (d : EventDict) : result EventDict :=
  match p with
  | ExtraAdder => Ok (PyDict.set "color_message" (PyStr "colored") d)
  | _ => demo_lib p lg m d
  end.


(** The effects of a trace that are calls of a hook other than
    [sys.__excepthook__]. *)
Definition other_hook_calls (t : list Effect) : list (Hook * ExcInfo) :=
  omap (λ e, match e with
             | HookCalled sys___excepthook__ _ => None
             | HookCalled h x => Some (h, x)
             | _ => None
             end) t.

(** The logging part of a state: everything but the trace and the object
    counter. *)
Definition logging_state (st : Interp)
    : Logger * gmap string Logger * option StructlogConfig * Hook :=
  (root st, loggerDict st, structlog_config st, excepthook st).

(** ** What the statements ask of [structlog]

    The stages and renderers of [structlog] are parameters.  Two of the
    stages are pinned down where a statement depends on them, from what the
    library does. *)

(** What [logging] knows of a record beyond its message: the name of the
    logger it was made by, and the attributes it got from the [extra]
    argument of the call, in the order of [record.__dict__]. *)
Record RecordAttrs := {
  ra_name : string;
  ra_extra : EventDict
}.

(** [for key, value in extra.items(): event_dict[key] = value] *)
Definition add_extras (extra : EventDict) (d : EventDict) : EventDict :=
  fold_left (λ d kv, PyDict.set kv.1 kv.2 d) extra d.

(** [ExtraAdder()]: when the event dict carries a record under [_record],
    every attribute the record got from [extra] is copied into the event
    dict; without a record the dict is left as it is. *)
Definition extra_adder (records : nat → RecordAttrs) (d : EventDict)
    : EventDict :=
  match PyDict.get "_record" d with
  | Some (PyObj r) => add_extras (ra_extra (records r)) d
  | _ => d
  end.





(** [bool(v)] *)
Definition truthy (v : PyValue) : bool :=
  match v with
  | PyNone => false
  | PyBool b => b
  | PyInt n => negb (n =? 0)%Z
  | PyStr s => negb (String.eqb s "")
  | PyObj _ => true
  | PyExc _ => true
  end.

(** ** Stages to run examples with

    [add_logger_name] and [ExtraAdder] do what the library does: the first
    stores [record.name] when the event dict carries a record and
    [logger.name] otherwise (a [structlog] logger is given by its name), the
    second copies the extras of the record.  [add_log_level] stores the
    method name, [format_exc_info] replaces a true [exc_info] by the field
    [exception], [StackInfoRenderer] a true [stack_info] by the field
    [stack].  The clock and the call site are fixed, no context variables are
    bound and no positional arguments are passed. *)
Definition example_lib (records : nat → RecordAttrs) (p : LibProcessor)
    (lg : PyValue) (m : string) (d : EventDict) : result EventDict :=
  match p with
  | merge_contextvars => Ok d
  | add_logger_name =>
      match PyDict.get "_record" d with
      | Some (PyObj r) => Ok (PyDict.set "logger" (PyStr (ra_name (records r))) d)
      | Some PyNone | None =>
          match lg with
          | PyStr name => Ok (PyDict.set "logger" (PyStr name) d)
          | _ => Raise (AttributeError "name")
          end
      | Some _ => Raise (AttributeError "name")
      end
  | add_log_level => Ok (PyDict.set "level" (PyStr m) d)
  | PositionalArgumentsFormatter => Ok d
  | ExtraAdder =>
      match PyDict.get "_record" d with
      | Some (PyObj _) | Some PyNone | None => Ok (extra_adder records d)
      | Some _ => Raise (AttributeError "__dict__")
      end
  | TimeStamper _ => Ok (PyDict.set "timestamp" (PyStr "2024-01-01T00:00:00Z") d)
  | StackInfoRenderer =>
      match PyDict.get "stack_info" d with
      | Some v =>
          let d := PyDict.remove "stack_info" d in
          if truthy v then Ok (PyDict.set "stack" (PyStr "Stack") d) else Ok d
      | None => Ok d
      end
  | UnicodeDecoder => Ok d
  | CallsiteParameterAdder _ =>
      Ok (PyDict.set "lineno" (PyInt 10)
            (PyDict.set "func_name" (PyStr "add_one")
               (PyDict.set "filename" (PyStr "task_test.py") d)))
  | format_exc_info =>
      match PyDict.get "exc_info" d with
      | Some v =>
          let d := PyDict.remove "exc_info" d in
          if truthy v then Ok (PyDict.set "exception" (PyStr "Traceback") d)
          else Ok d
      | None => Ok d
      end
  end.

(** Records for the examples: record 1 was made by the logger [app] with
    [extra={"process_id": 7}], record 2 by [app] with [extra={"value": 1}],
    every other record by [app] without [extra]. *)
Definition example_records (r : nat) : RecordAttrs :=
  match r with
  | 1 => {| ra_name := "app"; ra_extra := [("process_id", PyInt 7)] |}
  | 2 => {| ra_name := "app"; ra_extra := [("value", PyInt 1)] |}
  | _ => {| ra_name := "app"; ra_extra := [] |}
  end.

Definition SystemExit_class : PyClass :=
  {| cls_name := "SystemExit";
     cls_mro := ["SystemExit"; "BaseException"; "object"] |}.

Definition a_system_exit : ExcInfo :=
  {| exc_type := SystemExit_class; exc_value := "1"; exc_traceback := None |}.

(** * Properties *)

(** ** Dictionaries *)

Section PyDictFacts.

Implicit Types (k : string) (v : PyValue) (d : PyDict.t).

Lemma get_set_eq k v d : PyDict.get k (PyDict.set k v d) = Some v.
Proof.
  induction d as [|[k' v'] d IH]; simpl.
  - by rewrite String.eqb_refl.
  - destruct (String.eqb k k') eqn:E; simpl; rewrite ?String.eqb_refl ?E //.
Qed.

Lemma get_set_ne k k' v d :
  k ≠ k' → PyDict.get k (PyDict.set k' v d) = PyDict.get k d.
Proof.
  intros Hne. induction d as [|[k0 v0] d IH]; simpl.
  - by apply String.eqb_neq in Hne as ->.
  - destruct (String.eqb k' k0) eqn:E; simpl.
    + apply String.eqb_eq in E as <-.
      by apply String.eqb_neq in Hne as ->.
    + by rewrite IH.
Qed.

Lemma get_remove_eq k d : PyDict.get k (PyDict.remove k d) = None.
Proof.
  induction d as [|[k' v'] d IH]; simpl; [done|].
  destruct (String.eqb k k') eqn:E; simpl; rewrite ?E //.
Qed.

Lemma get_remove_ne k k' d :
  k ≠ k' → PyDict.get k (PyDict.remove k' d) = PyDict.get k d.
Proof.
  intros Hne. induction d as [|[k0 v0] d IH]; simpl; [done|].
  destruct (String.eqb k' k0) eqn:E; simpl.
  - apply String.eqb_eq in E as <-.
    by apply String.eqb_neq in Hne as ->.
  - by rewrite IH.
Qed.

Lemma remove_absent k d : PyDict.get k d = None → PyDict.remove k d = d.
Proof.
  induction d as [|[k' v'] d IH]; simpl; [done|].
  destruct (String.eqb k k'); [done|]. intros H. by rewrite IH.
Qed.

Lemma remove_set_absent k v d :
  PyDict.get k d = None → PyDict.remove k (PyDict.set k v d) = d.
Proof.
  induction d as [|[k' v'] d IH]; simpl.
  - by rewrite String.eqb_refl.
  - destruct (String.eqb k k') eqn:E; [done|]. intros H.
    simpl. by rewrite E IH.
Qed.

Lemma remove_set_ne k k' v d :
  k ≠ k' →
  PyDict.remove k (PyDict.set k' v d) = PyDict.set k' v (PyDict.remove k d).
Proof.
  intros Hne. induction d as [|[k0 v0] d IH]; simpl.
  - by apply String.eqb_neq in Hne as ->.
  - destruct (String.eqb k' k0) eqn:E, (String.eqb k k0) eqn:E'; simpl;
      rewrite ?E ?E' ?IH //.
    + apply String.eqb_eq in E, E'. congruence.
    + apply String.eqb_eq in E as <-.
      by apply String.eqb_neq in Hne as ->.
Qed.

Lemma remove_comm k k' d :
  PyDict.remove k (PyDict.remove k' d) = PyDict.remove k' (PyDict.remove k d).
Proof.
  induction d as [|[k0 v0] d IH]; simpl; [done|].
  destruct (String.eqb k' k0) eqn:E, (String.eqb k k0) eqn:E'; simpl;
    rewrite ?E ?E' ?IH //.
Qed.

(** Removing a key leaves exactly the bindings of the other keys, in their
    order. *)
Lemma remove_filter k d :
  PyDict.remove k d = filter (λ kv, kv.1 ≠ k) d.
Proof.
  induction d as [|[k' v'] d IH]; simpl; [done|].
  destruct (String.eqb k k') eqn:E.
  - apply String.eqb_eq in E as ->. rewrite filter_cons_False; auto.
  - apply String.eqb_neq in E. rewrite filter_cons_True; [simpl; congruence|].
    by rewrite IH.
Qed.

Lemma remove_wf k d : PyDict.wf d → PyDict.wf (PyDict.remove k d).
Proof.
  unfold PyDict.wf. rewrite remove_filter.
  induction d as [|[k' v'] d IH]; simpl; [done|].
  rewrite NoDup_cons. intros [Hni Hnd].
  destruct (decide (k' ≠ k)) as [Hk|Hk].
  - rewrite filter_cons_True //. simpl. apply NoDup_cons. split; [|auto].
    intros Hin. apply Hni.
    apply list_elem_of_fmap in Hin as [[k1 v1] [-> Hin]].
    apply list_elem_of_filter in Hin as [_ Hin].
    apply list_elem_of_fmap. by exists (k1, v1).
  - rewrite filter_cons_False; auto.
Qed.

End PyDictFacts.

(** ** The two processors of [app/log.py] *)

Lemma drop_color_message_key_eq lg m (d : EventDict) :
  _drop_color_message_key lg m d = Ok (PyDict.remove "color_message" d).
Proof.
  rewrite /_drop_color_message_key /PyDict.pop.
  destruct (PyDict.get "color_message" d) eqn:E; [done|].
  by rewrite remove_absent.
Qed.

(** C10.  For every event dict, [_drop_color_message_key] returns without
    raising; the result is the dict without its [color_message] binding and
    with every other binding unchanged and in place; a dict that has no
    [color_message] comes back as it is. *)
Theorem drop_color_message_key_frame (lg : PyValue) (m : string) (d : EventDict) :
  ∃ d',
    _drop_color_message_key lg m d = Ok d' ∧
    d' = filter (λ kv, kv.1 ≠ "color_message") d ∧
    PyDict.get "color_message" d' = None ∧
    (∀ k, k ≠ "color_message" → PyDict.get k d' = PyDict.get k d) ∧
    (PyDict.get "color_message" d = None → d' = d).
Proof.
  exists (PyDict.remove "color_message" d). split_and!.
  - apply drop_color_message_key_eq.
  - apply remove_filter.
  - apply get_remove_eq.
  - intros k Hk. by apply get_remove_ne.
  - apply remove_absent.
Qed.

Example drop_color_message_key_present :
  _drop_color_message_key PyNone "info"
    [("event", PyStr "x"); ("color_message", PyStr "y"); ("n", PyInt 1)]
  = Ok [("event", PyStr "x"); ("n", PyInt 1)].
Proof. reflexivity. Qed.

Example pop_without_default_raises :
  PyDict.pop "color_message" None [("event", PyStr "x")]
  = Raise (KeyError "color_message").
Proof. reflexivity. Qed.

(** ** Running a chain *)

Section ChainFacts.

Variable lib : LibProcessor → PyValue → string → EventDict → result EventDict.
Variable render : LogRenderer → PyValue → string → EventDict → result string.
Variable proc : Process.

Local Abbreviation run_processor := (run_processor lib render proc).
Local Abbreviation run_chain := (run_chain lib render proc).

Lemma run_chain_app c1 c2 lg m ev :
  run_chain (c1 ++ c2) lg m ev =
    match run_chain c1 lg m ev with
    | Ok ev' => run_chain c2 lg m ev'
    | Raise e => Raise e
    end.
Proof.
  revert ev. induction c1 as [|p c1 IH]; intros ev; simpl; [done|].
  destruct ev as [d|s]; [|done].
  destruct (run_processor p lg m d); [apply IH|done].
Qed.

Lemma run_chain_text c lg m s d :
  run_chain c lg m (Text s) ≠ Ok (Dict d).
Proof. by destruct c. Qed.

(** A property of event dicts that every stage of a chain keeps is kept by
    the chain. *)
Lemma run_chain_invariant (P : EventDict → Prop) c :
  Forall (λ p, ∀ lg m d d',
    P d → run_processor p lg m d = Ok (Dict d') → P d') c →
  ∀ lg m d d',
    P d → run_chain c lg m (Dict d) = Ok (Dict d') → P d'.
Proof.
  induction 1 as [|p c Hp _ IH]; intros lg m d d' HP; simpl.
  - by intros [= <-].
  - destruct (run_processor p lg m d) as [[d1|s]|e] eqn:E; [|by intros ?%run_chain_text|done].
    apply IH. by eapply Hp.
Qed.

End ChainFacts.

(** ** The process id *)










(** ** The two paths *)

Lemma mem_set_ne k k' v (d : EventDict) :
  k ≠ k' → PyDict.mem k (PyDict.set k' v d) = PyDict.mem k d.
Proof. intros. by rewrite /PyDict.mem get_set_ne. Qed.

Lemma mem_remove_ne k k' (d : EventDict) :
  k ≠ k' → PyDict.mem k (PyDict.remove k' d) = PyDict.mem k d.
Proof. intros. by rewrite /PyDict.mem get_remove_ne. Qed.


(** ** Running statements *)

Lemma bind_run {A B} (m : M A) (f : A → M B) st a st' :
  m st = (Ok a, st') → (m ≫= f) st = f a st'.
Proof. rewrite /mbind /M_bind. by intros ->. Qed.

Lemma bind_raise {A B} (m : M A) (f : A → M B) st e st' :
  m st = (Raise e, st') → (m ≫= f) st = (Raise e, st').
Proof. rewrite /mbind /M_bind. by intros ->. Qed.

Lemma set_loggerDict_same st : set_loggerDict (loggerDict st) st = st.
Proof. by destruct st. Qed.

Lemma getLogger_named name st :
  name ≠ "" → name ≠ "root" →
  getLogger name st = (Ok (NamedLogger name), named_update name id st).
Proof.
  intros H1%String.eqb_neq H2%String.eqb_neq.
  rewrite /getLogger H1 H2 /= /named_update.
  erewrite bind_run; [|reflexivity].
  destruct (loggerDict st !! name) as [l|] eqn:E; simpl.
  - by rewrite insert_id // set_loggerDict_same.
  - by erewrite bind_run; [|reflexivity].
Qed.

Lemma update_named name f g st :
  update (NamedLogger name) f (named_update name g st)
  = (Ok tt, named_update name (f ∘ g) st).
Proof.
  rewrite /update /modify /named_update /set_loggerDict /=.
  by rewrite lookup_insert_eq insert_insert_eq.
Qed.

Lemma named_update_twice name f g st :
  named_update name f (named_update name g st) = named_update name (f ∘ g) st.
Proof.
  rewrite /named_update /set_loggerDict /=.
  by rewrite lookup_insert_eq insert_insert_eq.
Qed.

(** [getLogger(name)] then an update of what it returns. *)
Lemma getLogger_update name f st :
  name ≠ "" → name ≠ "root" →
  (l ← getLogger name; update l f) st = (Ok tt, named_update name f st).
Proof.
  intros H1 H2. erewrite bind_run; [|by apply getLogger_named].
  by rewrite update_named.
Qed.

Ltac run :=
  cbv beta;
  lazymatch goal with
  | |- (mbind ?f ?m) ?st = _ => erewrite (bind_run m f st); [|run]; run
  | |- getLogger _ _ = _ => first [by apply getLogger_named | reflexivity]
  | |- update (NamedLogger _) _ (named_update _ _ _) = _ => apply update_named
  | |- _ => reflexivity
  end.

Lemma named_update_ext name f g st :
  (∀ l, f l = g l) → named_update name f st = named_update name g st.
Proof. intros H. by rewrite /named_update H. Qed.

Lemma setup_logging_with_run lvl json n st :
  _nameToLevel (upper lvl) = Some n →
  setup_logging_with lvl json st = (Ok tt, state_after n json st).
Proof.
  intros Hn. rewrite /setup_logging_with /setLevel Hn.
  cbn [for_each]. rewrite /handlers_clear /set_propagate /__name__.
  etrans; [run|].
  rewrite /modify /state_after /named_after. f_equal. f_equal.
  rewrite !named_update_twice.
  rewrite /root_after /the_handler /the_config /the_formatter /setFormatter /=.
  by destruct (existsb _ _).
Qed.

Lemma setup_logging_with_unknown_level lvl json st :
  _nameToLevel (upper lvl) = None →
  fst (setup_logging_with lvl json st)
    = Raise (ValueError "Unknown level: %r" (upper lvl)).
Proof.
  intros Hn. rewrite /setup_logging_with /setLevel Hn.
  do 4 (erewrite bind_run; [|reflexivity]).
  by erewrite bind_raise; [|reflexivity].
Qed.

Lemma setup_logging_run st :
  setup_logging st = (Ok tt, state_after 20 LOG_JSON_FORMAT st).
Proof. by apply setup_logging_with_run. Qed.

Lemma lookup_named_update_eq name f st :
  loggerDict (named_update name f st) !! name
  = Some (f (default new_logger (loggerDict st !! name))).
Proof. rewrite /named_update /=. apply lookup_insert_eq. Qed.

Lemma lookup_named_update_ne name f st name' :
  name ≠ name' →
  loggerDict (named_update name f st) !! name' = loggerDict st !! name'.
Proof. intros. rewrite /named_update /=. by apply lookup_insert_ne. Qed.

Ltac lookup_named :=
  repeat (rewrite lookup_named_update_eq
          || (rewrite lookup_named_update_ne; try by (done || congruence))).

Lemma lookup_named_after st name :
  loggerDict (named_after st) !! name
  = apply_rule (applied_policy name) (loggerDict st !! name).
Proof.
  rewrite /named_after /applied_policy /__name__.
  destruct (String.eqb_spec name "uvicorn") as [->|?]; [by lookup_named|].
  destruct (String.eqb_spec name "uvicorn.error") as [->|?]; [by lookup_named|].
  destruct (String.eqb_spec name "uvicorn.access") as [->|?]; [by lookup_named|].
  destruct (String.eqb_spec name "pymongo.topology") as [->|?]; [by lookup_named|].
  destruct (String.eqb_spec name "app.log") as [->|?]; by lookup_named.
Qed.

Lemma loggerDict_state_after n json st name :
  loggerDict (state_after n json st) !! name
  = apply_rule (applied_policy name) (loggerDict st !! name).
Proof. by rewrite /state_after /= lookup_named_after. Qed.

Lemma fresh_handler json st :
  wf_interp st →
  existsb (same_object (the_handler json st)) (handlers (root st)) = false.
Proof.
  rewrite /wf_interp. induction 1 as [|h hs Hh _ IH]; simpl; [done|].
  rewrite IH orb_false_r /same_object /=. apply Nat.eqb_neq. lia.
Qed.

Lemma root_state_after n json st :
  wf_interp st →
  root (state_after n json st)
  = {| level := n; handlers := handlers (root st) ++ [the_handler json st];
       propagate := propagate (root st) |}.
Proof. intros Hwf. by rewrite /= /root_after fresh_handler. Qed.

Lemma wf_state_after n json st :
  wf_interp st → wf_interp (state_after n json st).
Proof.
  intros Hwf. rewrite /wf_interp root_state_after //=.
  apply Forall_app. split.
  - eapply Forall_impl; [exact Hwf|]. simpl. lia.
  - repeat constructor.
Qed.

(** ** The exception hook *)

Lemma set_trace_same st : set_trace (trace st) st = st.
Proof. by destruct st. Qed.

Lemma for_each_emit (record : LogRecord) hs st :
  for_each hs (λ hdlr,
    if (handler_level hdlr <=? rec_levelno record)%nat
    then emit (Emitted hdlr record) else mret tt) st
  = (Ok tt,
     set_trace (trace st ++
       map (λ h, Emitted h record)
           (filter (λ h, (handler_level h ≤ rec_levelno record)%nat) hs)) st).
Proof.
  revert st. induction hs as [|h hs IH]; intros st; simpl.
  - by rewrite /= app_nil_r set_trace_same.
  - destruct (Nat.leb_spec (handler_level h) (rec_levelno record)) as [Hle|Hgt].
    + erewrite bind_run; [|reflexivity]. rewrite IH /=.
      rewrite filter_cons_True //=. by rewrite -app_assoc.
    + erewrite bind_run; [|reflexivity]. rewrite IH.
      rewrite filter_cons_False //. lia.
Qed.

(** The hook on an exception that is not a [KeyboardInterrupt], in a state
    whose root logger lets CRITICAL through and has a handler. *)
Lemma handle_exception_logs e st :
  issubclass (exc_type e) "KeyboardInterrupt" = false →
  isEnabledFor_root CRITICAL st = true →
  handlers (root st) ≠ [] →
  _handle_exception e st
  = (Ok tt,
     set_trace (trace st ++
       Logged (uncaught_record e) ::
       map (λ h, Emitted h (uncaught_record e))
           (filter (λ h, (handler_level h ≤ CRITICAL)%nat) (handlers (root st)))) st).
Proof.
  intros Hki Hen Hhs. rewrite /_handle_exception Hki /root_critical.
  erewrite bind_run; [|reflexivity]. rewrite Hen.
  erewrite bind_run; [|reflexivity].
  rewrite /callHandlers_root. erewrite bind_run; [|reflexivity].
  cbn [root set_trace]. 
  destruct (handlers (root st)) as [|h hs] eqn:E; [done|].
  rewrite for_each_emit /set_trace /= -app_assoc. by destruct st.
Qed.

Lemma handle_exception_interrupt e st :
  issubclass (exc_type e) "KeyboardInterrupt" = true →
  _handle_exception e st
  = (Ok tt, set_trace (trace st ++ [HookCalled sys___excepthook__ e]) st).
Proof. intros Hki. by rewrite /_handle_exception Hki. Qed.

Lemma uncaught_installed e st :
  excepthook st = HandleException → uncaught e st = _handle_exception e st.
Proof.
  intros H. rewrite /uncaught. erewrite bind_run; [|reflexivity]. by rewrite H.
Qed.

Lemma effects_cons_Logged r t :
  logged (Logged r :: t) = r :: logged t ∧
  hook_calls (Logged r :: t) = hook_calls t ∧
  emitted (Logged r :: t) = emitted t.
Proof. done. Qed.

Lemma logged_emitted r hs :
  logged (map (λ h, Emitted h r) hs) = [] ∧
  hook_calls (map (λ h, Emitted h r) hs) = [] ∧
  emitted (map (λ h, Emitted h r) hs) = map (λ h, (h, r)) hs.
Proof.
  induction hs as [|h hs (H1&H2&H3)]; simpl; [done|].
  by rewrite /emitted /= -/(emitted _) H3.
Qed.

Lemma apply_rule_twice rule o :
  apply_rule rule (apply_rule rule o) = apply_rule rule o.
Proof. by destruct rule as [[[] ?]|]. Qed.

Lemma exec_setup_logging st :
  exec setup_logging st = state_after 20 LOG_JSON_FORMAT st.
Proof. by rewrite /exec setup_logging_run. Qed.

Lemma returns_setup_logging st : returns setup_logging st = true.
Proof. by rewrite /returns setup_logging_run. Qed.

(** C1.  [setup_logging] leaves the loggers [taskiq], [taskiq.worker],
    [taskiq.broker] and [taskiq.scheduler] as they were: their handlers stay
    attached and their propagation flag is not set.  The loop over these
    names sets [propagate = False] on the logger of [app.log] instead.  On a
    state where [taskiq] and [uvicorn] start out alike, [uvicorn] ends up
    without handlers and propagating, [taskiq] unchanged. *)
Theorem taskiq_loggers_left_alone :
  (∀ st,
     Forall (λ name,
               loggerDict (exec setup_logging st) !! name = loggerDict st !! name)
       ["taskiq"; "taskiq.worker"; "taskiq.broker"; "taskiq.scheduler"]) ∧
  (∀ st, propagate <$> loggerDict (exec setup_logging st) !! __name__
         = Some false) ∧
  let st' := exec setup_logging taskiq_state in
  loggerDict st' !! "taskiq"
    = Some {| level := 0; handlers := [an_old_handler]; propagate := false |} ∧
  loggerDict st' !! "uvicorn"
    = Some {| level := 0; handlers := []; propagate := true |} ∧
  loggerDict st' !! "taskiq.worker" = None ∧
  loggerDict st' !! "taskiq.broker" = None ∧
  loggerDict st' !! "taskiq.scheduler" = None ∧
  loggerDict st' !! __name__
    = Some {| level := 0; handlers := []; propagate := false |}.
Proof.
  split; [|split].
  - intros st. repeat constructor;
      by rewrite exec_setup_logging loggerDict_state_after.
  - intros st. by rewrite exec_setup_logging loggerDict_state_after.
  - by vm_compute.
Qed.

(** C2 as stated fails: with settings that ask for DEBUG and JSON output,
    the root logger is at INFO, DEBUG records are filtered, and the renderer
    is not the JSON renderer. *)
Lemma settings_not_consulted_counterexample :
  let st := fresh debug_json_settings a_process in
  let st' := exec setup_logging st in
  LogLevel_levelno (S_LOG_LEVEL (settings st)) = 10 ∧
  level (root st') = 20 ∧
  level (root st') ≠ LogLevel_levelno (S_LOG_LEVEL (settings st)) ∧
  isEnabledFor_root 10 st' = false ∧
  log_renderer (S_LOG_JSON_FORMAT (settings st)) = JSONRenderer ∧
  installed_renderer st' ≠ Some JSONRenderer.
Proof. by vm_compute. Qed.

(** C2, amended.  The minimum level and the render mode [setup_logging] uses
    are the module constants of [app/log.py], INFO and the console renderer;
    they equal the defaults of [Settings], and the settings object is not
    consulted: whatever it holds, the resulting configuration is the same. *)
Theorem level_and_renderer_are_module_constants (st : Interp)
    (Hwf : wf_interp st) :
  let st' := exec setup_logging st in
  returns setup_logging st = true ∧
  level (root st') = LogLevel_levelno INFO ∧
  (∀ levelno, isEnabledFor_root levelno st' = (20 <=? levelno)%nat) ∧
  installed_renderer st' = Some (log_renderer false) ∧
  structlog_config st' = Some (the_config false) ∧
  S_LOG_LEVEL Settings_defaults = INFO ∧
  S_LOG_JSON_FORMAT Settings_defaults = false ∧
  (∀ cfg,
     let st'' := exec setup_logging (set_settings cfg st) in
     root st'' = root st' ∧ loggerDict st'' = loggerDict st' ∧
     structlog_config st'' = structlog_config st' ∧
     excepthook st'' = excepthook st').
Proof.
  cbv zeta. rewrite returns_setup_logging.
  split_and!; try done.
  - by rewrite exec_setup_logging.
  - intros levelno. by rewrite exec_setup_logging /isEnabledFor_root.
  - rewrite exec_setup_logging /installed_renderer root_state_after //=.
    by rewrite last_snoc.
  - by rewrite exec_setup_logging.
  - intros cfg. by rewrite !exec_setup_logging.
Qed.

(** C2, amended, at a fresh interpreter whose settings ask for DEBUG. *)
Lemma level_and_renderer_are_module_constants_witness :
  wf_interp (fresh debug_json_settings a_process) ∧
  level (root (exec setup_logging (fresh debug_json_settings a_process))) = 20.
Proof.
  assert (Hwf : wf_interp (fresh debug_json_settings a_process))
    by (vm_compute; constructor).
  split; [exact Hwf|].
  exact (proj1 (proj2 (level_and_renderer_are_module_constants _ Hwf))).
Defined.

(** C3 as stated fails: when another hook was installed before
    [setup_logging], a [KeyboardInterrupt] is passed to [sys.__excepthook__],
    not to that hook. *)
Lemma interrupt_skips_previous_hook_counterexample :
  let st' := exec setup_logging hooked_state in
  excepthook hooked_state = ForeignHook 7 ∧
  hook_calls (trace (exec (uncaught a_keyboard_interrupt) st'))
    = [(sys___excepthook__, a_keyboard_interrupt)] ∧
  hook_calls (trace (exec (uncaught a_keyboard_interrupt) st'))
    ≠ [(excepthook hooked_state, a_keyboard_interrupt)].
Proof. by vm_compute. Qed.

(** C3, amended.  On a [KeyboardInterrupt] (or a subclass) the installed
    hook calls the interpreter's built-in hook [sys.__excepthook__] with the
    same exception, makes no log record, writes nothing, and returns. *)
Theorem interrupt_goes_to_builtin_hook (st : Interp) (e : ExcInfo)
    (Hki : issubclass (exc_type e) "KeyboardInterrupt" = true) :
  let st' := exec setup_logging st in
  excepthook st' = HandleException ∧
  returns (uncaught e) st' = true ∧
  trace (exec (uncaught e) st')
    = trace st' ++ [HookCalled sys___excepthook__ e] ∧
  logged [HookCalled sys___excepthook__ e] = [] ∧
  emitted [HookCalled sys___excepthook__ e] = [] ∧
  root (exec (uncaught e) st') = root st' ∧
  excepthook (exec (uncaught e) st') = excepthook st'.
Proof.
  cbv zeta. rewrite exec_setup_logging.
  rewrite /exec /returns uncaught_installed // handle_exception_interrupt //.
Qed.

(** C3, amended, at a [KeyboardInterrupt] in an interpreter that had another
    hook. *)
Lemma interrupt_goes_to_builtin_hook_witness :
  issubclass (exc_type a_keyboard_interrupt) "KeyboardInterrupt" = true ∧
  trace (exec (uncaught a_keyboard_interrupt)
           (exec setup_logging hooked_state))
  = [HookCalled sys___excepthook__ a_keyboard_interrupt].
Proof.
  split; [reflexivity|].
  exact (proj1 (proj2 (proj2
    (interrupt_goes_to_builtin_hook hooked_state a_keyboard_interrupt eq_refl)))).
Defined.

(** C4 as stated fails: the second call attaches a second handler to the
    root logger, and an uncaught exception is then written twice. *)
Lemma setup_logging_twice_counterexample :
  let st1 := exec setup_logging (fresh Settings_defaults a_process) in
  let st2 := exec setup_logging st1 in
  map handler_id (handlers (root st1)) = [0] ∧
  map handler_id (handlers (root st2)) = [0; 1] ∧
  root st2 ≠ root st1 ∧
  length (emitted (trace (exec (uncaught a_value_error) st2))) = 2.
Proof. by vm_compute. Qed.

(** C4, amended.  Every call of [setup_logging] attaches one new handler to
    the root logger, with the same formatter; apart from that handler, the
    state after two calls equals the state after one: root level and
    propagation, the named loggers, the [structlog] configuration and the
    exception hook. *)
Theorem setup_logging_twice_adds_a_handler (st : Interp) (Hwf : wf_interp st) :
  let st1 := exec setup_logging st in
  let st2 := exec setup_logging st1 in
  returns setup_logging st = true ∧ returns setup_logging st1 = true ∧
  handlers (root st2) = handlers (root st1) ++ [the_handler false st1] ∧
  Forall (λ h, handler_id h ≠ handler_id (the_handler false st1))
    (handlers (root st1)) ∧
  handler_formatter (the_handler false st1)
    = handler_formatter (the_handler false st) ∧
  level (root st2) = level (root st1) ∧
  propagate (root st2) = propagate (root st1) ∧
  loggerDict st2 = loggerDict st1 ∧
  structlog_config st2 = structlog_config st1 ∧
  excepthook st2 = excepthook st1 ∧
  trace st2 = trace st1.
Proof.
  cbv zeta. rewrite !returns_setup_logging !exec_setup_logging.
  pose proof (wf_state_after 20 LOG_JSON_FORMAT st Hwf) as Hwf1.
  split_and!; try done.
  - by rewrite (root_state_after _ _ (state_after _ _ _)).
  - eapply Forall_impl; [exact Hwf1|]. simpl. intros h. lia.
  - apply map_eq. intros name.
    by rewrite !loggerDict_state_after apply_rule_twice.
Qed.

(** C4, amended, at a fresh interpreter. *)
Lemma setup_logging_twice_adds_a_handler_witness :
  wf_interp (fresh Settings_defaults a_process) ∧
  map handler_id
    (handlers (root (exec setup_logging
                       (exec setup_logging (fresh Settings_defaults a_process)))))
  = [0; 1].
Proof.
  assert (Hwf : wf_interp (fresh Settings_defaults a_process))
    by (vm_compute; constructor).
  split; [exact Hwf|].
  rewrite (proj1 (proj2 (proj2
    (setup_logging_twice_adds_a_handler _ Hwf)))).
  reflexivity.
Defined.

(** C5 as stated fails: [LogLevel.NOTSET < LogLevel.DEBUG] is false and
    [LogLevel.DEBUG < LogLevel.NOTSET] is true; likewise WARNING and ERROR. *)
Lemma LogLevel_order_counterexample :
  LogLevel_index NOTSET < LogLevel_index DEBUG ∧
  LogLevel_lt NOTSET DEBUG = false ∧
  LogLevel_lt DEBUG NOTSET = true ∧
  LogLevel_index WARNING < LogLevel_index ERROR ∧
  LogLevel_lt WARNING ERROR = false.
Proof. vm_compute. repeat split; lia. Qed.

(** C5, amended.  The members are declared in the order NOTSET, DEBUG, INFO,
    WARNING, ERROR, FATAL, which is the order of the numeric levels [logging]
    gives to their names.  The class defines no comparison; the [<] it
    inherits from [str] is a strict total order that sorts the members by
    name: DEBUG, ERROR, FATAL, INFO, NOTSET, WARNING. *)
Theorem LogLevel_order :
  map LogLevel_levelno LogLevel_members = [0; 10; 20; 30; 40; 50] ∧
  (∀ a b, (LogLevel_index a <? LogLevel_index b)%nat
          = (LogLevel_levelno a <? LogLevel_levelno b)%nat) ∧
  (∀ a b, LogLevel_lt a b = (index_of_name a <? index_of_name b)%nat) ∧
  (∀ a, LogLevel_lt a a = false) ∧
  (∀ a b, a = b ∨ LogLevel_lt a b = true ∨ LogLevel_lt b a = true) ∧
  (∀ a b c, LogLevel_lt a b && LogLevel_lt b c && negb (LogLevel_lt a c) = false).
Proof.
  split_and!; try done.
  - by intros [] [].
  - by intros [] [].
  - by intros [].
  - intros [] []; vm_compute; tauto.
  - by intros [] [] [].
Qed.

Lemma at_top_level_hook e st :
  issubclass (exc_type e) "SystemExit" = false →
  at_top_level e st = uncaught e st.
Proof. intros H. by rewrite /at_top_level H. Qed.

(** C6 as stated fails.  After the two calls of [setup_logging] that
    [app/tkq.py] and [app/main.py] make, an uncaught [ValueError] gives one
    record that two handlers render and write, so it comes out twice; and a
    [SystemExit], which is not the user interrupt either, reaches no hook
    and gives no record. *)
Lemma uncaught_exception_counterexample :
  let st2 := exec setup_logging
               (exec setup_logging (fresh Settings_defaults a_process)) in
  issubclass (exc_type a_value_error) "KeyboardInterrupt" = false ∧
  logged (trace (exec (at_top_level a_value_error) st2))
    = [uncaught_record a_value_error] ∧
  map (λ x, handler_id x.1)
    (emitted (trace (exec (at_top_level a_value_error) st2))) = [0; 1] ∧
  issubclass (exc_type a_system_exit) "KeyboardInterrupt" = false ∧
  trace (exec (at_top_level a_system_exit) st2) = [].
Proof. by vm_compute. Qed.

(** C6, amended.  For every exception nobody caught other than a
    [KeyboardInterrupt] and a [SystemExit] (which reaches no hook), the hook
    installed by [setup_logging] makes exactly one record, at CRITICAL, whose
    [exc_info] is the exception's type, value and traceback, and hands it to
    every handler of the root logger, once each: once in all when the root
    had no handler before a single [setup_logging].  The handler
    [setup_logging] attached formats it as any record made by [logging]: the
    shared chain on the event [Uncaught exception] with the record's
    [exc_info], then [remove_processors_meta] and the renderer.  No other
    hook is called, the logging state is left as it was, and the hook
    returns, so the interpreter goes on to terminate. *)
Theorem uncaught_exception_logged_per_handler
    (lib : LibProcessor → PyValue → string → EventDict → result EventDict)
    (render : LogRenderer → PyValue → string → EventDict → result string)
    (proc : Process) (st : Interp) (e : ExcInfo) (record : nat)
    (Hwf : wf_interp st)
    (Hki : issubclass (exc_type e) "KeyboardInterrupt" = false)
    (Hexit : issubclass (exc_type e) "SystemExit" = false) :
  let st' := exec setup_logging st in
  let h := the_handler LOG_JSON_FORMAT st in
  let r := {| rec_name := "root"; rec_levelno := CRITICAL;
              rec_msg := "Uncaught exception"; rec_exc_info := Some e |} in
  excepthook st' = HandleException ∧
  returns (at_top_level e) st' = true ∧
  (∃ new,
    trace (exec (at_top_level e) st') = trace st' ++ new ∧
    logged new = [r] ∧
    hook_calls new = [] ∧
    emitted new
      = map (λ h, (h, r))
          (filter (λ h, (handler_level h ≤ CRITICAL)%nat) (handlers (root st'))) ∧
    (h, r) ∈ emitted new ∧
    (handlers (root st) = [] → emitted new = [(h, r)])) ∧
  handler_format lib render proc h record r
    = Some
        match run_chain lib render proc (shared_processors LOG_JSON_FORMAT)
                PyNone "critical"
                (Dict [("event", PyStr "Uncaught exception");
                       ("_record", PyObj record);
                       ("_from_structlog", PyBool false);
                       ("exc_info", PyExc e)]) with
        | Ok (Dict ev) =>
            run_chain lib render proc
              [RemoveProcessorsMeta; Render (log_renderer LOG_JSON_FORMAT)]
              PyNone "critical" (Dict ev)
        | Ok (Text _) => Raise (TypeError "processor applied to rendered text")
        | Raise x => Raise x
        end ∧
  root (exec (at_top_level e) st') = root st' ∧
  loggerDict (exec (at_top_level e) st') = loggerDict st' ∧
  excepthook (exec (at_top_level e) st') = excepthook st'.
Proof.
  cbv zeta. rewrite exec_setup_logging.
  set (st' := state_after 20 LOG_JSON_FORMAT st).
  assert (Hroot : handlers (root st')
                  = handlers (root st) ++ [the_handler LOG_JSON_FORMAT st])
    by by rewrite /st' root_state_after.
  assert (Hrun := handle_exception_logs e st' Hki).
  rewrite /exec /returns at_top_level_hook // uncaught_installed // Hrun //.
  { rewrite Hroot. by destruct (handlers (root st)). }
  split; [done|]. split; [done|]. split; [|done].
  eexists. split; [reflexivity|].
  destruct (logged_emitted (uncaught_record e)
    (filter (λ h, (handler_level h ≤ CRITICAL)%nat) (handlers (root st'))))
    as (Hl & Hh & He).
  destruct (effects_cons_Logged (uncaught_record e)
    (map (λ h, Emitted h (uncaught_record e))
      (filter (λ h, (handler_level h ≤ CRITICAL)%nat) (handlers (root st')))))
    as (Hl' & Hh' & He').
  rewrite Hl' Hh' He' Hl Hh He.
  split_and!; try done.
  - rewrite Hroot.
    apply (list_elem_of_fmap_2 (λ h, (h, uncaught_record e))).
    apply list_elem_of_filter. split; [simpl; rewrite /CRITICAL; lia|].
    apply elem_of_app. right. by apply list_elem_of_singleton.
  - intros Hnone. by rewrite Hroot Hnone.
Qed.

(** C6, amended, at a [ValueError] in a fresh interpreter. *)
Lemma uncaught_exception_logged_per_handler_witness :
  wf_interp (fresh Settings_defaults a_process) ∧
  issubclass (exc_type a_value_error) "KeyboardInterrupt" = false ∧
  issubclass (exc_type a_value_error) "SystemExit" = false ∧
  returns (at_top_level a_value_error)
    (exec setup_logging (fresh Settings_defaults a_process)) = true ∧
  handler_format (example_lib example_records) demo_render a_process
    (the_handler LOG_JSON_FORMAT (fresh Settings_defaults a_process)) 3
    (uncaught_record a_value_error)
  = Some (Ok (Text
      "event exc_info logger process_id level timestamp filename func_name lineno ")).
Proof.
  assert (Hwf : wf_interp (fresh Settings_defaults a_process))
    by (vm_compute; constructor).
  split; [exact Hwf|]. split; [reflexivity|]. split; [reflexivity|].
  destruct (uncaught_exception_logged_per_handler (example_lib example_records)
              demo_render a_process _ a_value_error 3 Hwf eq_refl eq_refl)
    as (_ & Hret & _ & Hfmt & _).
  split; [exact Hret|]. rewrite Hfmt. reflexivity.
Defined.

(** C8.  The shared chain is, in this order: context variables merge, logger
    name, process id, level, positional arguments, extra fields, removal of
    [color_message], ISO timestamp, stack info, unicode decoding, call-site
    parameters; [format_exc_info] follows exactly when the JSON (structured)
    renderer is selected.  [structlog.configure] receives this chain followed
    by [wrap_for_formatter]. *)
Theorem shared_processors_order (log_json_format : bool) :
  shared_processors log_json_format =
    [ Lib merge_contextvars;
      Lib add_logger_name;
      SetProcessId;
      Lib add_log_level;
      Lib PositionalArgumentsFormatter;
      Lib ExtraAdder;
      DropColorMessageKey;
      Lib (TimeStamper "iso");
      Lib StackInfoRenderer;
      Lib UnicodeDecoder;
      Lib (CallsiteParameterAdder [FILENAME; FUNC_NAME; LINENO]) ]
    ++ (if log_json_format then [Lib format_exc_info] else [])
  ∧ log_renderer log_json_format
    = (if log_json_format then JSONRenderer
       else ConsoleRenderer true
              [("debug", [Fore_CYAN]); ("info", [Fore_GREEN]);
               ("warning", [Fore_YELLOW]); ("error", [Fore_RED]);
               ("critical", [Fore_RED; Style_BRIGHT])])
  ∧ ∀ st,
      sl_processors <$>
        structlog_config (exec (setup_logging_with LOG_LEVEL log_json_format) st)
      = Some (shared_processors log_json_format ++ [WrapForFormatter]).
Proof.
  split_and!; try by destruct log_json_format.
  intros st. by rewrite /exec (setup_logging_with_run _ _ 20).
Qed.









(** * Further properties *)

(** ** The two processors as functions on dictionaries *)

Lemma set_keys_present k v (d : EventDict) :
  PyDict.mem k d = true → map fst (PyDict.set k v d) = map fst d.
Proof.
  rewrite /PyDict.mem. induction d as [|[k' v'] d IH]; simpl; [done|].
  destruct (String.eqb_spec k k') as [->|Hne]; simpl; [done|].
  intros H. by rewrite IH.
Qed.

Lemma set_keys_absent k v (d : EventDict) :
  PyDict.mem k d = false → map fst (PyDict.set k v d) = map fst d ++ [k].
Proof.
  rewrite /PyDict.mem. induction d as [|[k' v'] d IH]; simpl; [done|].
  destruct (String.eqb_spec k k') as [->|Hne]; simpl; [done|].
  intros H. by rewrite IH.
Qed.

Lemma mem_keys k (d : EventDict) :
  PyDict.mem k d = true ↔ k ∈ map fst d.
Proof.
  rewrite /PyDict.mem. induction d as [|[k' v'] d IH]; simpl.
  - split; [done|]. by intros ?%elem_of_nil.
  - destruct (String.eqb_spec k k') as [->|Hne].
    + split; [intros _; by left|done].
    + rewrite IH. split; [by right|].
      intros [?|?]%elem_of_cons; [done|done].
Qed.

Lemma set_wf k v (d : EventDict) : PyDict.wf d → PyDict.wf (PyDict.set k v d).
Proof.
  rewrite /PyDict.wf. intros Hwf.
  destruct (PyDict.mem k d) eqn:E.
  - by rewrite set_keys_present.
  - rewrite set_keys_absent //. apply NoDup_app. split_and!; [done| |].
    + intros x Hx ->%list_elem_of_singleton.
      apply mem_keys in Hx. congruence.
    + apply NoDup_singleton.
Qed.

Lemma set_set k v v' (d : EventDict) :
  PyDict.set k v (PyDict.set k v' d) = PyDict.set k v d.
Proof.
  induction d as [|[k0 v0] d IH]; simpl.
  - by rewrite String.eqb_refl.
  - destruct (String.eqb k k0) eqn:E; simpl; rewrite ?String.eqb_refl ?E ?IH //.
Qed.

Lemma remove_remove k (d : EventDict) :
  PyDict.remove k (PyDict.remove k d) = PyDict.remove k d.
Proof. apply remove_absent, get_remove_eq. Qed.

(** X1.  [_set_process_id] replaces a [process_id] the caller supplied by
    the process identifier and leaves every other field as it is; the field
    keeps its place when the dict had one and goes last otherwise, so the
    dict grows by at most one binding. *)
Theorem set_process_id_overrides (os : Process) (lg : PyValue) (m : string)
    (d : EventDict) :
  ∃ d',
    _set_process_id os lg m d = Ok d' ∧
    PyDict.get "process_id" d' = Some (PyInt (pid os)) ∧
    (∀ k, k ≠ "process_id" → PyDict.get k d' = PyDict.get k d) ∧
    map fst d' = (if PyDict.mem "process_id" d then map fst d
                  else map fst d ++ ["process_id"]) ∧
    length d' = (if PyDict.mem "process_id" d then length d else S (length d)).
Proof.
  eexists. split; [reflexivity|]. split_and!.
  - apply get_set_eq.
  - intros k Hk. by apply get_set_ne.
  - destruct (PyDict.mem "process_id" d) eqn:E.
    + by apply set_keys_present.
    + by apply set_keys_absent.
  - rewrite -!(length_map fst).
    destruct (PyDict.mem "process_id" d) eqn:E.
    + by rewrite set_keys_present.
    + rewrite set_keys_absent // length_app /=. lia.
Qed.

(** X2.  Each of the two processors is idempotent, and they commute:
    dropping [color_message] after setting [process_id] gives the same dict
    as setting [process_id] after dropping [color_message]. *)
Theorem processors_idempotent_and_commute (os : Process) (lg : PyValue)
    (m : string) (d : EventDict) :
  ∃ a b ab,
    _set_process_id os lg m d = Ok a ∧
    _drop_color_message_key lg m d = Ok b ∧
    _set_process_id os lg m a = Ok a ∧
    _drop_color_message_key lg m b = Ok b ∧
    _drop_color_message_key lg m a = Ok ab ∧
    _set_process_id os lg m b = Ok ab.
Proof.
  exists (PyDict.set "process_id" (PyInt (os_getpid os)) d),
    (PyDict.remove "color_message" d),
    (PyDict.set "process_id" (PyInt (os_getpid os))
       (PyDict.remove "color_message" d)).
  rewrite !drop_color_message_key_eq /_set_process_id.
  split_and!; try done.
  - by rewrite set_set.
  - by rewrite remove_remove.
  - by rewrite remove_set_ne.
Qed.

(** X3.  On a dict whose keys are unique, both processors return a dict
    whose keys are unique, and [_drop_color_message_key] removes exactly one
    binding when [color_message] is present and none otherwise. *)
Theorem processors_keep_keys_unique (os : Process) (lg : PyValue) (m : string)
    (d : EventDict) (Hwf : PyDict.wf d) :
  ∃ a b,
    _set_process_id os lg m d = Ok a ∧ PyDict.wf a ∧
    _drop_color_message_key lg m d = Ok b ∧ PyDict.wf b ∧
    length b = (if PyDict.mem "color_message" d then pred (length d)
                else length d).
Proof.
  exists (PyDict.set "process_id" (PyInt (os_getpid os)) d),
    (PyDict.remove "color_message" d).
  rewrite drop_color_message_key_eq. split_and!; try done.
  - by apply set_wf.
  - by apply remove_wf.
  - clear os lg m. revert Hwf. rewrite /PyDict.wf /PyDict.mem.
    induction d as [|[k v] d IH]; cbn -[String.eqb]; [done|].
    rewrite NoDup_cons. intros [Hni Hnd].
    destruct (String.eqb_spec "color_message" k) as [<-|Hne]; cbn -[String.eqb].
    + rewrite remove_absent //.
      destruct (PyDict.get "color_message" d) eqn:E; [|done].
      exfalso. apply Hni, mem_keys. by rewrite /PyDict.mem E.
    + rewrite IH //. destruct (PyDict.get "color_message" d) eqn:E; [|done].
      destruct d; [done|]. done.
Qed.

(** X3 at a dict with an event and a [color_message]. *)
Lemma processors_keep_keys_unique_witness :
  PyDict.wf [("event", PyStr "x"); ("color_message", PyStr "y")] ∧
  ∃ b,
    _drop_color_message_key PyNone "info"
      [("event", PyStr "x"); ("color_message", PyStr "y")] = Ok b ∧
    length b = 1.
Proof.
  assert (Hwf : PyDict.wf [("event", PyStr "x"); ("color_message", PyStr "y")]).
  { rewrite /PyDict.wf /=. apply NoDup_cons. split.
    - intros [?|?%elem_of_nil]%elem_of_cons; done.
    - apply NoDup_singleton. }
  split; [exact Hwf|].
  destruct (processors_keep_keys_unique a_process PyNone "info" _ Hwf)
    as (a & b & _ & _ & Hb & _ & Hlen).
  exists b. split; [exact Hb|exact Hlen].
Defined.

(** ** The shared chain and [color_message] *)

Lemma mem_remove_eq k (d : EventDict) : PyDict.mem k (PyDict.remove k d) = false.
Proof. by rewrite /PyDict.mem get_remove_eq. Qed.

Lemma shared_processors_split json :
  shared_processors json
  = take 6 (shared_processors json) ++ [DropColorMessageKey]
    ++ stages_after_drop json.
Proof. by destruct json. Qed.

Lemma stages_after_drop_lib json p :
  p ∈ stages_after_drop json → ∃ q, p = Lib q.
Proof.
  destruct json; rewrite /stages_after_drop /=; intros Hp;
    repeat (apply elem_of_cons in Hp as [->|Hp]; [by eexists|]);
    by apply elem_of_nil in Hp.
Qed.

(** X4.  Whatever the stages before [_drop_color_message_key] do, also when
    [ExtraAdder] copies a [color_message] into the event dict, an event dict
    that leaves the shared chain has no [color_message], as long as the
    [structlog] stages after [_drop_color_message_key] do not add one. *)
Theorem chain_output_has_no_color_message
    (lib : LibProcessor → PyValue → string → EventDict → result EventDict)
    (render : LogRenderer → PyValue → string → EventDict → result string)
    (proc : Process) (log_json_format : bool)
    (Hlib : later_stages_add_no_color_message lib log_json_format)
    (lg : PyValue) (m : string) (d d' : EventDict)
    (Hrun : run_chain lib render proc (shared_processors log_json_format) lg m
              (Dict d) = Ok (Dict d')) :
  PyDict.mem "color_message" d' = false.
Proof.
  rewrite shared_processors_split !run_chain_app in Hrun.
  destruct (run_chain _ _ _ (take 6 _) lg m (Dict d)) as [[d6|s]|e];
    [|by apply run_chain_text in Hrun|done].
  simpl in Hrun. rewrite drop_color_message_key_eq /= in Hrun.
  eapply (run_chain_invariant lib render proc
            (λ d, PyDict.mem "color_message" d = false));
    [|apply mem_remove_eq|exact Hrun].
  apply Forall_forall. intros p Hp lg' m' a a' Ha.
  destruct (stages_after_drop_lib _ _ Hp) as [q ->]. simpl.
  destruct (lib q lg' m' a) eqn:E; [|done]. intros [= <-].
  by eapply Hlib.
Qed.

Lemma uvicorn_lib_later_stages :
  later_stages_add_no_color_message uvicorn_lib false.
Proof.
  intros p lg m d d' Hp.
  rewrite /stages_after_drop /= in Hp.
  repeat (apply elem_of_cons in Hp as [[= ->]|Hp];
          [simpl; intros [= <-]; by rewrite ?mem_set_ne|]).
  by apply elem_of_nil in Hp.
Qed.

(** X4 at an example in which [ExtraAdder] adds a [color_message]. *)
Lemma chain_output_has_no_color_message_witness :
  later_stages_add_no_color_message uvicorn_lib false ∧
  ∃ d',
    run_chain uvicorn_lib demo_render a_process (shared_processors false)
      PyNone "info" (Dict [("event", PyStr "GET / 200")]) = Ok (Dict d') ∧
    PyDict.mem "color_message" d' = false.
Proof.
  split; [exact uvicorn_lib_later_stages|].
  eexists. split; [reflexivity|].
  apply (chain_output_has_no_color_message uvicorn_lib demo_render a_process
           false uvicorn_lib_later_stages PyNone "info"
           [("event", PyStr "GET / 200")]).
  reflexivity.
Defined.

Example uvicorn_lib_adds_color_message :
  run_chain uvicorn_lib demo_render a_process (take 6 (shared_processors false))
    PyNone "info" (Dict [("event", PyStr "GET / 200")])
  = Ok (Dict [("event", PyStr "GET / 200"); ("logger", PyNone);
              ("process_id", PyInt 4242); ("level", PyStr "info");
              ("color_message", PyStr "colored")]).
Proof. reflexivity. Qed.

(** ** [setup_logging] and the named loggers *)


(** X5.  After [setup_logging], whatever they were before, the loggers
    [uvicorn] and [uvicorn.error] exist, have no handlers and propagate, and
    the loggers [uvicorn.access] and [pymongo.topology] exist, have no
    handlers and do not propagate; each keeps its level. *)
Theorem uvicorn_and_pymongo_loggers_configured (st : Interp) :
  let st' := exec setup_logging st in
  Forall (λ name, ∃ l,
            loggerDict st' !! name = Some l ∧
            handlers l = [] ∧ propagate l = true ∧
            level l = level (deref (NamedLogger name) st))
    ["uvicorn"; "uvicorn.error"] ∧
  Forall (λ name, ∃ l,
            loggerDict st' !! name = Some l ∧
            handlers l = [] ∧ propagate l = false ∧
            level l = level (deref (NamedLogger name) st))
    ["uvicorn.access"; "pymongo.topology"].
Proof.
  cbv zeta. rewrite exec_setup_logging.
  split;
    repeat (apply Forall_cons; split;
            [rewrite loggerDict_state_after /=; by eexists|]);
    by apply Forall_nil.
Qed.



(** ** [setup_logging] and the root logger *)

Lemma nameToLevel_known name n :
  _nameToLevel name = Some n →
  name ∈ ["CRITICAL"; "FATAL"; "ERROR"; "WARN"; "WARNING"; "INFO"; "DEBUG";
          "NOTSET"]
  ∧ (n ≤ CRITICAL)%nat.
Proof.
  rewrite /_nameToLevel /CRITICAL.
  destruct (String.eqb_spec name "CRITICAL") as [->|?];
    [intros [= <-]; split; [set_solver|lia]|].
  destruct (String.eqb_spec name "FATAL") as [->|?];
    [intros [= <-]; split; [set_solver|lia]|].
  destruct (String.eqb_spec name "ERROR") as [->|?];
    [intros [= <-]; split; [set_solver|lia]|].
  destruct (String.eqb_spec name "WARN") as [->|?];
    [intros [= <-]; split; [set_solver|lia]|].
  destruct (String.eqb_spec name "WARNING") as [->|?];
    [intros [= <-]; split; [set_solver|lia]|].
  destruct (String.eqb_spec name "INFO") as [->|?];
    [intros [= <-]; split; [set_solver|lia]|].
  destruct (String.eqb_spec name "DEBUG") as [->|?];
    [intros [= <-]; split; [set_solver|lia]|].
  destruct (String.eqb_spec name "NOTSET") as [->|?];
    [intros [= <-]; split; [set_solver|lia]|].
  done.
Qed.

Lemma ascii_upper_idem c : ascii_upper (ascii_upper c) = ascii_upper c.
Proof. destruct c as [[] [] [] [] [] [] [] []]; vm_compute; reflexivity. Qed.

Lemma upper_idem s : upper (upper s) = upper s.
Proof.
  induction s as [|c s IH]; [done|].
  change (String (ascii_upper (ascii_upper c)) (upper (upper s))
          = String (ascii_upper c) (upper s)).
  by rewrite ascii_upper_idem IH.
Qed.

(** The state an unknown level name leaves behind. *)
Lemma setup_logging_with_raise lvl json st :
  _nameToLevel (upper lvl) = None →
  setup_logging_with lvl json st
  = (Raise (ValueError "Unknown level: %r" (upper lvl)),
     set_root
       {| level := level (root st);
          handlers :=
            if existsb (same_object (the_handler json st)) (handlers (root st))
            then handlers (root st)
            else handlers (root st) ++ [the_handler json st];
          propagate := propagate (root st) |}
       (set_next_object (S (next_object st))
          (set_structlog_config (Some (the_config json)) st))).
Proof.
  intros Hn. rewrite /setup_logging_with /setLevel Hn.
  do 4 (erewrite bind_run; [|reflexivity]).
  erewrite bind_raise; [|reflexivity].
  rewrite /the_handler /the_config /the_formatter /setFormatter /=.
  destruct (existsb _ _); by destruct st as [[] ? ? ? ? ? ? ?].
Qed.

(** X7.  [setup_logging] does not detach the handlers the root logger
    already has: it appends one new handler, with level 0 and the formatter it
    built, sets the root level to INFO (20) whatever it was, and leaves the
    root's propagation flag alone. *)
Theorem root_handlers_kept (st : Interp) (Hwf : wf_interp st) :
  let st' := exec setup_logging st in
  handlers (root st')
    = handlers (root st) ++
      [{| handler_id := next_object st; handler_level := 0;
          handler_formatter := Some (the_formatter LOG_JSON_FORMAT) |}] ∧
  level (root st') = 20 ∧
  propagate (root st') = propagate (root st) ∧
  next_object st' = S (next_object st) ∧
  wf_interp st'.
Proof.
  cbv zeta. rewrite exec_setup_logging.
  split_and!; try done.
  - by rewrite root_state_after.
  - by apply wf_state_after.
Qed.

(** X7 at a root logger that had a handler and was at DEBUG. *)
Lemma root_handlers_kept_witness :
  wf_interp (set_root {| level := 10; handlers := [an_old_handler];
                         propagate := true |} taskiq_state) ∧
  map handler_id
    (handlers (root (exec setup_logging
      (set_root {| level := 10; handlers := [an_old_handler];
                   propagate := true |} taskiq_state))))
  = [0; 1].
Proof.
  assert (Hwf : wf_interp (set_root {| level := 10; handlers := [an_old_handler];
                                       propagate := true |} taskiq_state))
    by (vm_compute; repeat constructor).
  split; [exact Hwf|].
  by rewrite (proj1 (root_handlers_kept _ Hwf)).
Defined.

(** X8.  When the upper-cased level name (ASCII) is not one [logging] knows,
    the body of [setup_logging] raises from [setLevel] the [ValueError] whose
    text is [Unknown level: %r] filled in with the upper-cased name; by then
    [structlog] is configured and the new handler is on the root, while the
    root level, the named loggers and [sys.excepthook] are as before. *)
Theorem unknown_level_leaves_setup_half_done (lvl : string) (json : bool)
    (st : Interp) (Hwf : wf_interp st)
    (Hascii : is_ascii lvl = true)
    (Hlvl : _nameToLevel (upper lvl) = None) :
  let r := setup_logging_with lvl json st in
  r.1 = Raise (ValueError "Unknown level: %r" (upper lvl)) ∧
  structlog_config r.2 = Some (the_config json) ∧
  handlers (root r.2) = handlers (root st) ++ [the_handler json st] ∧
  level (root r.2) = level (root st) ∧
  loggerDict r.2 = loggerDict st ∧
  excepthook r.2 = excepthook st.
Proof.
  cbv zeta. rewrite setup_logging_with_raise //=.
  by rewrite fresh_handler.
Qed.

(** X8 at the level name [verbose]. *)
Lemma unknown_level_leaves_setup_half_done_witness :
  wf_interp hooked_state ∧ is_ascii "verbose" = true ∧
  _nameToLevel (upper "verbose") = None ∧
  (setup_logging_with "verbose" false hooked_state).1
    = Raise (ValueError "Unknown level: %r" "VERBOSE") ∧
  excepthook (setup_logging_with "verbose" false hooked_state).2
    = ForeignHook 7.
Proof.
  assert (Hwf : wf_interp hooked_state) by (vm_compute; constructor).
  split; [exact Hwf|]. split; [reflexivity|]. split; [reflexivity|].
  destruct (unknown_level_leaves_setup_half_done "verbose" false hooked_state
              Hwf eq_refl eq_refl) as (H1 & _ & _ & _ & _ & H2).
  split; [exact H1|exact H2].
Defined.

(** X9.  For an ASCII level name and the level names [logging] starts out
    with, the body of [setup_logging] returns normally exactly when the
    upper-cased name is one of CRITICAL, FATAL, ERROR, WARN, WARNING, INFO,
    DEBUG, NOTSET; the case of the letters of the name makes no
    difference. *)
Theorem accepted_level_names (lvl : string) (json : bool) (st : Interp)
    (Hascii : is_ascii lvl = true) :
  (returns (setup_logging_with lvl json) st = true ↔
   upper lvl ∈ ["CRITICAL"; "FATAL"; "ERROR"; "WARN"; "WARNING"; "INFO";
                "DEBUG"; "NOTSET"]) ∧
  setup_logging_with (upper lvl) json st = setup_logging_with lvl json st.
Proof.
  split.
  - rewrite /returns. destruct (_nameToLevel (upper lvl)) as [n|] eqn:E.
    + rewrite (setup_logging_with_run _ _ n) //.
      split; [intros _|done]. by apply (nameToLevel_known _ n).
    + rewrite setup_logging_with_unknown_level //.
      split; [done|]. intros Hin.
      repeat (apply elem_of_cons in Hin as [Hin|Hin];
              [by rewrite Hin in E|]).
      by apply elem_of_nil in Hin.
  - by rewrite /setup_logging_with upper_idem.
Qed.

(** X9 at the level names [info] and [loud]. *)
Lemma accepted_level_names_witness :
  is_ascii "info" = true ∧ is_ascii "loud" = true ∧
  returns (setup_logging_with "info" false) (fresh Settings_defaults a_process)
    = true ∧
  returns (setup_logging_with "loud" false) (fresh Settings_defaults a_process)
    ≠ true.
Proof.
  split; [reflexivity|]. split; [reflexivity|]. split.
  - apply (proj1 (accepted_level_names "info" false _ eq_refl)).
    do 5 (apply elem_of_cons; right). apply elem_of_cons. by left.
  - intros Hin%(proj1 (accepted_level_names "loud" false _ eq_refl)).
    repeat (apply elem_of_cons in Hin as [Hin|Hin]; [discriminate|]).
    by apply elem_of_nil in Hin.
Defined.

(** X10.  The value of every [LogLevel] member is a level name the body of
    [setup_logging] accepts; it sets the root level to the member's numeric
    level, which is at most CRITICAL; and no two members have the same
    value. *)
Theorem every_LogLevel_is_accepted (l : LogLevel) (json : bool) (st : Interp) :
  returns (setup_logging_with (LogLevel_value l) json) st = true ∧
  level (root (exec (setup_logging_with (LogLevel_value l) json) st))
    = LogLevel_levelno l ∧
  (LogLevel_levelno l ≤ CRITICAL)%nat ∧
  Forall (λ l', LogLevel_value l' = LogLevel_value l ↔ l' = l) LogLevel_members.
Proof.
  rewrite /returns /exec.
  rewrite (setup_logging_with_run _ _ (LogLevel_levelno l)); [by destruct l|].
  split_and!; try done.
  - rewrite /CRITICAL. destruct l; vm_compute; lia.
  - repeat (apply Forall_cons; split; [by destruct l|]). by apply Forall_nil.
Qed.

(** ** The exception hook in any state *)

Lemma set_trace_nil st : set_trace (trace st ++ []) st = st.
Proof. by rewrite app_nil_r set_trace_same. Qed.

Lemma other_hook_calls_emitted r hs :
  other_hook_calls (map (λ h, Emitted h r) hs) = [].
Proof. by induction hs. Qed.

(** [root.critical] only adds to the trace: at most one record, and no hook
    call. *)
Lemma root_critical_run msg exc_info st :
  ∃ new,
    root_critical msg exc_info st = (Ok tt, set_trace (trace st ++ new) st) ∧
    (length (logged new) ≤ 1)%nat ∧
    hook_calls new = [].
Proof.
  rewrite /root_critical. erewrite bind_run; [|reflexivity].
  destruct (isEnabledFor_root CRITICAL st) eqn:Hen.
  - erewrite bind_run; [|reflexivity].
    rewrite /callHandlers_root. erewrite bind_run; [|reflexivity].
    cbn [root set_trace].
    set (r := {| rec_name := "root"; rec_levelno := CRITICAL; rec_msg := msg;
                 rec_exc_info := exc_info |}).
    destruct (handlers (root st)) as [|h hs] eqn:E.
    + exists [Logged r; EmittedLastResort r]. split; [|split; [simpl; lia|done]].
      rewrite /= /emit /modify /set_trace /= -app_assoc. by destruct st.
    + exists (Logged r :: map (λ h, Emitted h r)
                (filter (λ h, (handler_level h ≤ rec_levelno r)%nat) (h :: hs))).
      split; [rewrite for_each_emit /set_trace /= -app_assoc; by destruct st|].
      destruct (logged_emitted r
        (filter (λ h, (handler_level h ≤ rec_levelno r)%nat) (h :: hs)))
        as (Hl & Hh & _).
      destruct (effects_cons_Logged r
        (map (λ h, Emitted h r)
           (filter (λ h, (handler_level h ≤ rec_levelno r)%nat) (h :: hs))))
        as (Hl' & Hh' & _).
      rewrite Hl' Hh' Hl Hh. split; [simpl; lia|done].
  - exists []. rewrite set_trace_nil. split; [done|]. split; [simpl; lia|done].
Qed.

Lemma handle_exception_run e st :
  ∃ new,
    _handle_exception e st = (Ok tt, set_trace (trace st ++ new) st) ∧
    (length (logged new) ≤ 1)%nat ∧
    other_hook_calls new = [] ∧
    (issubclass (exc_type e) "KeyboardInterrupt" = true →
     new = [HookCalled sys___excepthook__ e]) ∧
    (issubclass (exc_type e) "KeyboardInterrupt" = false → hook_calls new = []).
Proof.
  rewrite /_handle_exception.
  destruct (issubclass (exc_type e) "KeyboardInterrupt") eqn:Hki.
  - exists [HookCalled sys___excepthook__ e]. split_and!; try done.
    simpl. lia.
  - destruct (root_critical_run "Uncaught exception" (Some e) st)
      as (new & Hrun & Hlen & Hh).
    exists new. split_and!; try done.
    clear -Hh. induction new as [|[] new IH]; simpl in *; try done; auto.
Qed.

(** X11.  In every state and for every exception, [_handle_exception]
    returns without raising, leaves the loggers, the [structlog]
    configuration, [sys.excepthook] and the settings as they are, makes at
    most one log record, and calls no hook other than [sys.__excepthook__]. *)
Theorem hook_only_adds_to_the_trace (e : ExcInfo) (st : Interp) :
  returns (_handle_exception e) st = true ∧
  logging_state (exec (_handle_exception e) st) = logging_state st ∧
  settings (exec (_handle_exception e) st) = settings st ∧
  ∃ new,
    trace (exec (_handle_exception e) st) = trace st ++ new ∧
    (length (logged new) ≤ 1)%nat ∧
    other_hook_calls new = [].
Proof.
  destruct (handle_exception_run e st) as (new & Hrun & Hlen & Ho & _).
  rewrite /returns /exec Hrun /=. split_and!; try done.
  by exists new.
Qed.

(** X12.  [setup_logging] replaces whatever hook was installed: afterwards
    an uncaught exception of any class never reaches a hook other than
    [sys.__excepthook__]. *)
Theorem previous_hook_is_never_called (st : Interp) (e : ExcInfo) :
  let st' := exec setup_logging st in
  excepthook st' = HandleException ∧
  ∃ new,
    trace (exec (uncaught e) st') = trace st' ++ new ∧
    other_hook_calls new = [].
Proof.
  cbv zeta. rewrite exec_setup_logging. split; [done|].
  destruct (handle_exception_run e (state_after 20 LOG_JSON_FORMAT st))
    as (new & Hrun & _ & Ho & _).
  exists new. by rewrite /exec uncaught_installed // Hrun.
Qed.

(** X13.  No accepted level name silences the hook: whatever (ASCII) level
    name and render mode [setup_logging] is run with, an exception nobody
    caught that is neither a [KeyboardInterrupt] nor a [SystemExit] is logged
    as one CRITICAL record and emitted by the handler [setup_logging]
    attached. *)
Theorem no_level_silences_uncaught_exceptions (lvl : string) (json : bool)
    (n : nat) (st : Interp) (e : ExcInfo)
    (Hwf : wf_interp st)
    (Hascii : is_ascii lvl = true)
    (Hlvl : _nameToLevel (upper lvl) = Some n)
    (Hki : issubclass (exc_type e) "KeyboardInterrupt" = false)
    (Hexit : issubclass (exc_type e) "SystemExit" = false) :
  let st' := exec (setup_logging_with lvl json) st in
  ∃ new,
    trace (exec (at_top_level e) st') = trace st' ++ new ∧
    logged new = [uncaught_record e] ∧
    (the_handler json st, uncaught_record e) ∈ emitted new ∧
    renderer_of (the_formatter json) = Some (log_renderer json).
Proof.
  cbv zeta. rewrite /exec (setup_logging_with_run _ _ n) //=.
  set (st' := state_after n json st).
  assert (Hroot : handlers (root st')
                  = handlers (root st) ++ [the_handler json st])
    by by rewrite /st' root_state_after.
  rewrite at_top_level_hook // uncaught_installed // handle_exception_logs //.
  { rewrite /isEnabledFor_root /=. apply Nat.leb_le.
    by apply (nameToLevel_known (upper lvl)). }
  { rewrite Hroot. by destruct (handlers (root st)). }
  eexists. split; [reflexivity|].
  destruct (logged_emitted (uncaught_record e)
    (filter (λ h, (handler_level h ≤ CRITICAL)%nat) (handlers (root st'))))
    as (Hl & _ & He).
  destruct (effects_cons_Logged (uncaught_record e)
    (map (λ h, Emitted h (uncaught_record e))
      (filter (λ h, (handler_level h ≤ CRITICAL)%nat) (handlers (root st')))))
    as (Hl' & _ & He').
  rewrite Hl' He' Hl He Hroot. split_and!; try done.
  apply (list_elem_of_fmap_2 (λ h, (h, uncaught_record e))).
  apply list_elem_of_filter. split; [simpl; rewrite /CRITICAL; lia|].
  apply elem_of_app. right. by apply list_elem_of_singleton.
Qed.

(** X13 at the level name [critical] and JSON output. *)
Lemma no_level_silences_uncaught_exceptions_witness :
  wf_interp (fresh Settings_defaults a_process) ∧
  is_ascii "critical" = true ∧
  _nameToLevel (upper "critical") = Some 50 ∧
  issubclass (exc_type a_value_error) "KeyboardInterrupt" = false ∧
  issubclass (exc_type a_value_error) "SystemExit" = false ∧
  logged (trace (exec (at_top_level a_value_error)
           (exec (setup_logging_with "critical" true)
              (fresh Settings_defaults a_process))))
  = [uncaught_record a_value_error].
Proof.
  assert (Hwf : wf_interp (fresh Settings_defaults a_process))
    by (vm_compute; constructor).
  split; [exact Hwf|]. split; [reflexivity|]. split; [reflexivity|].
  split; [reflexivity|]. split; [reflexivity|].
  destruct (no_level_silences_uncaught_exceptions "critical" true 50 _
              a_value_error Hwf eq_refl eq_refl eq_refl eq_refl)
    as (new & Ht & Hl & _).
  rewrite Ht. exact Hl.
Defined.

(** ** What reaches the renderer *)

Lemma remove_processors_meta_strips (d d' : EventDict) :
  remove_processors_meta d = Ok d' →
  PyDict.mem "_record" d' = false ∧ PyDict.mem "_from_structlog" d' = false.
Proof.
  rewrite /remove_processors_meta /PyDict.del.
  destruct (PyDict.get "_record" d); [|done].
  destruct (PyDict.get "_from_structlog" _); [|done].
  intros [= <-]. split; [|apply mem_remove_eq].
  by rewrite mem_remove_ne // mem_remove_eq.
Qed.

(** The tail of the formatter: the bookkeeping keys go, then the renderer
    runs on what is left. *)
Lemma formatter_tail lib render proc r lg m (d : EventDict) :
  match run_chain lib render proc [RemoveProcessorsMeta; Render r] lg m (Dict d) with
  | Ok (Text s) =>
      ∃ d', PyDict.mem "_record" d' = false ∧
            PyDict.mem "_from_structlog" d' = false ∧
            render r lg m d' = Ok s
  | Ok (Dict _) => False
  | Raise _ => True
  end.
Proof.
  simpl. destruct (remove_processors_meta d) as [d'|] eqn:E; simpl; [|done].
  destruct (render r lg m d') as [s|] eqn:Er; simpl; [|done].
  exists d'. by destruct (remove_processors_meta_strips _ _ E).
Qed.

(** X15.  On both paths the formatter [setup_logging] builds removes
    [_record] and [_from_structlog] before the renderer runs: a path ends in
    an error or in the text the renderer made from an event dict that has
    neither key, never in an unrendered dict. *)
Theorem renderer_never_sees_bookkeeping_keys
    (lib : LibProcessor → PyValue → string → EventDict → result EventDict)
    (render : LogRenderer → PyValue → string → EventDict → result string)
    (proc : Process) (json : bool) (lg : PyValue) (m : string)
    (record : nat) (event_dict : EventDict) (message : string)
    (exc_info : option ExcInfo) (stack_info : option string) :
  (∀ st, structlog_config (exec (setup_logging_with LOG_LEVEL json) st)
         = Some (the_config json)) ∧
  match native_path lib render proc (the_config json) (the_formatter json)
          lg m record event_dict with
  | Ok (Text s) =>
      ∃ d', PyDict.mem "_record" d' = false ∧
            PyDict.mem "_from_structlog" d' = false ∧
            render (log_renderer json) lg m d' = Ok s
  | Ok (Dict _) => False
  | Raise _ => True
  end ∧
  match foreign_path lib render proc (the_formatter json) m record message
          exc_info stack_info with
  | Ok (Text s) =>
      ∃ d', PyDict.mem "_record" d' = false ∧
            PyDict.mem "_from_structlog" d' = false ∧
            render (log_renderer json) PyNone m d' = Ok s
  | Ok (Dict _) => False
  | Raise _ => True
  end.
Proof.
  split_and!.
  - intros st. by rewrite /exec (setup_logging_with_run _ _ 20).
  - rewrite /native_path /format_native.
    destruct (run_chain _ _ _ (sl_processors _) lg m (Dict event_dict))
      as [[d|?]|?]; [|done..].
    apply formatter_tail.
  - rewrite /foreign_path /format_foreign.
    destruct (run_chain _ _ _ (foreign_pre_chain _) PyNone m _)
      as [[d|?]|?]; [|done..].
    apply formatter_tail.
Qed.
